(** * ConnListModel: the windowed projection of the connection log

  A shallow embedding of [src/ui/model/connlistmodel.cpp]: the identifier
  range kept by the model, the classification of a range change into
  reset / remove-rows / insert-rows, the row count, the row-to-identifier
  mapping and the decoding of one fetched record.

  Fixed-width C++ integers are integers of [Z] with the wrap-around written
  out; calls on the Qt base class and on the host-name cache are recorded as
  events, in call order. *)

From Stdlib Require Import ZArith List String Bool Lia.
Import ListNotations.

Local Open Scope Z_scope.

(** ** Fixed-width integers *)

Module Int.

(** The signed [w]-bit representative of [z]. *)
Definition wrap (w z : Z) : Z := (z + 2 ^ (w - 1)) mod 2 ^ w - 2 ^ (w - 1).

Definition is_qint64 (z : Z) : Prop := - 2 ^ 63 <= z < 2 ^ 63.
Definition is_int (z : Z) : Prop := - 2 ^ 31 <= z < 2 ^ 31.

(** Conversions: [qint64(x)] and [int(x)]. *)
Definition to_qint64 (z : Z) : Z := wrap 64 z.
Definition to_int (z : Z) : Z := wrap 32 z.

(** [qint64] arithmetic. *)
Definition add64 (a b : Z) : Z := to_qint64 (a + b).
Definition sub64 (a b : Z) : Z := to_qint64 (a - b).

(** [int] arithmetic. *)
Definition add32 (a b : Z) : Z := to_int (a + b).
Definition sub32 (a b : Z) : Z := to_int (a - b).

End Int.
Import Int.

(** ** Data *)

Definition QByteArrayView := list Byte.byte.

(** One prepared result row of the query of [sqlBase] and [sqlWhere]: the
  column accessors of [SqliteStmt] (declared in [sqlite/sqlitestmt.h]),
  taken as an interface. *)
Record SqliteStmt : Type := {
columnInt64 : nat -> Z;
columnInt : nat -> Z;
columnBool : nat -> bool;
columnUnixTime : nat -> Z;
columnIsNull : nat -> bool;
columnBlob : nat -> QByteArrayView;
columnText : nat -> string
}.

(** [DbQuery(sqliteDb()).sql(sql()).vars({ connId }).prepareRow(stmt)]: the
  row of the connection with that identifier, when the join has one. *)
Definition SqliteDb := Z -> option SqliteStmt.

(** Calls made on the Qt base class and on the host-name cache. *)
Inductive Event : Type :=
| BeginRemoveRows (first last : Z)
| EndRemoveRows
| BeginInsertRows (first last : Z)
| EndInsertRows
| InvalidateRowCache
| ModelReset
| HostInfoCacheClear.

(** The host-name cache: resolved addresses with their host names. *)
Definition HostInfoCache := list (string * string).

Section Model.

(** [ip6_addr_t] and [NetUtil::arrayViewToIp6] are declared outside this
    file; the model is parametric in both. *)
Context {ip6_addr_t : Type}.
Variable arrayViewToIp6 : QByteArrayView -> ip6_addr_t.

(** [ip_addr_t]: the union of [v4] and [v6], with the member last
    written. *)
Inductive ip_addr_t : Type :=
| V4 (v4 : Z)
| V6 (v6 : ip6_addr_t).

(** The decoded row. The field types are declared in the header; each field
    holds the value its column accessor returns. *)
Record ConnRow : Type := {
  connId : Z;
  appId : Z;
  connTime : Z;
  pid : Z;
  reason : Z;
  blocked : bool;
  inherited : bool;
  inbound : bool;
  ipProto : Z;
  localPort : Z;
  remotePort : Z;
  isIPv6 : bool;
  localIp : ip_addr_t;
  remoteIp : ip_addr_t;
  appPath : string
}.

(** The model object together with the host-name cache it clears.
    [rowCache] is modelled from the spec (the base class is not part of
    this file): [None] is the empty cache, [Some row] says that [m_connRow]
    holds the decode of that row. *)
Record State : Type := {
  m_connIdMin : Z;
  m_connIdMax : Z;
  m_connRow : ConnRow;
  rowCache : option Z;
  hostInfoCache : HostInfoCache
}.

Definition set_connIdMin (v : Z) (s : State) : State :=
  {| m_connIdMin := v; m_connIdMax := m_connIdMax s; m_connRow := m_connRow s;
     rowCache := rowCache s; hostInfoCache := hostInfoCache s |}.

Definition set_connIdMax (v : Z) (s : State) : State :=
  {| m_connIdMin := m_connIdMin s; m_connIdMax := v; m_connRow := m_connRow s;
     rowCache := rowCache s; hostInfoCache := hostInfoCache s |}.

Definition set_connRow (v : ConnRow) (s : State) : State :=
  {| m_connIdMin := m_connIdMin s; m_connIdMax := m_connIdMax s; m_connRow := v;
     rowCache := rowCache s; hostInfoCache := hostInfoCache s |}.

Definition set_rowCache (v : option Z) (s : State) : State :=
  {| m_connIdMin := m_connIdMin s; m_connIdMax := m_connIdMax s;
     m_connRow := m_connRow s; rowCache := v; hostInfoCache := hostInfoCache s |}.

Definition set_hostInfoCache (v : HostInfoCache) (s : State) : State :=
  {| m_connIdMin := m_connIdMin s; m_connIdMax := m_connIdMax s;
     m_connRow := m_connRow s; rowCache := rowCache s; hostInfoCache := v |}.

(** ** Effects: state passing with a log of events *)

Definition M (A : Type) : Type := State -> A * State * list Event.

Definition ret {A} (a : A) : M A := fun s => (a, s, []).

Definition bind {A B} (c : M A) (k : A -> M B) : M B :=
  fun s =>
    let '(a, s1, l1) := c s in
    let '(b, s2, l2) := k a s1 in
    (b, s2, l1 ++ l2).

Definition gets {A} (f : State -> A) : M A := fun s => (f s, s, []).
Definition modify (f : State -> State) : M unit := fun s => (tt, f s, []).
Definition emit (e : Event) : M unit := fun s => (tt, s, [e]).
Definition when (b : bool) (c : M unit) : M unit := if b then c else ret tt.

Definition value {A} (c : M A) (s : State) : A := fst (fst (c s)).
Definition exec {A} (c : M A) (s : State) : State := snd (fst (c s)).
Definition events {A} (c : M A) (s : State) : list Event := snd (c s).

Notation "x <- c ;; k" := (bind c (fun x => k))
  (at level 61, c at next level, right associativity).
Notation "c ;; k" := (bind c (fun _ => k))
  (at level 61, right associativity).

(** ** The model's operations *)

Definition connIdMin (s : State) : Z := m_connIdMin s.
Definition connIdMax (s : State) : Z := m_connIdMax s.

(** Modelled from the spec: [invalidateRowCache] of the base class, which
    is not part of this file; it drops the memoized row without changing
    the bounds. *)
Definition invalidateRowCache : M unit :=
  modify (set_rowCache None) ;;
  emit InvalidateRowCache.

(** Modelled from the spec: [reset] of the base class, which is not part of
    this file; it invalidates the row cache and then emits the reset
    notification. *)
Definition reset : M unit :=
  invalidateRowCache ;;
  emit ModelReset.

(** Modelled from the spec: [HostInfoCache::clear] is not part of this
    file; the spec has the host-name cache as an external lookup cache, and
    clearing it is taken to empty it. *)
Definition hostInfoCache_clear : M unit :=
  modify (set_hostInfoCache []) ;;
  emit HostInfoCacheClear.

(** [int(connIdMax() - connIdMin())], the converted difference inside
    [doSqlCount]. *)
Definition idSpan (s : State) : Z := to_int (sub64 (connIdMax s) (connIdMin s)).

(** [doSqlCount], the row count of the stored range. *)
Definition doSqlCount (s : State) : Z :=
  if connIdMax s <=? 0 then 0 else add32 (idSpan s) 1.

(** The first line of [updateTableRow]: the identifier fetched for a
    row. *)
Definition rowConnId (s : State) (row : Z) : Z := add64 (connIdMin s) row.

(** The assignments of [updateTableRow] to [m_connRow], in source order;
    the two addresses are written in one branch on [isIPv6]. *)
Definition readConnRow (stmt : SqliteStmt) : ConnRow :=
  let v6 := columnIsNull stmt 11 in
  let ips :=
    if negb v6 then
      (V4 (columnInt stmt 11), V4 (columnInt stmt 12))
    else
      (V6 (arrayViewToIp6 (columnBlob stmt 13)),
       V6 (arrayViewToIp6 (columnBlob stmt 14))) in
  {| connId := columnInt64 stmt 0;
     appId := columnInt64 stmt 1;
     connTime := columnUnixTime stmt 2;
     pid := columnInt stmt 3;
     reason := columnInt stmt 4;
     blocked := columnBool stmt 5;
     inherited := columnBool stmt 6;
     inbound := columnBool stmt 7;
     ipProto := columnInt stmt 8;
     localPort := columnInt stmt 9;
     remotePort := columnInt stmt 10;
     isIPv6 := v6;
     localIp := fst ips;
     remoteIp := snd ips;
     appPath := columnText stmt 15 |}.

Definition updateTableRow (db : SqliteDb) (row : Z) : M bool :=
  connId <- gets (fun s => rowConnId s row) ;;
  match db connId with
  | None => ret false
  | Some stmt =>
      modify (set_connRow (readConnRow stmt)) ;;
      ret true
  end.

Definition resetConnRows (idMin idMax : Z) : M unit :=
  modify (set_connIdMin idMin) ;;
  modify (set_connIdMax idMax) ;;
  reset.

Definition removeConnRows (idMin count : Z) : M unit :=
  emit (BeginRemoveRows 0 (sub32 count 1)) ;;
  modify (set_connIdMin idMin) ;;
  invalidateRowCache ;;
  emit EndRemoveRows.

Definition insertConnRows (idMax endRow count : Z) : M unit :=
  emit (BeginInsertRows endRow (sub32 (add32 endRow count) 1)) ;;
  modify (set_connIdMax idMax) ;;
  invalidateRowCache ;;
  emit EndInsertRows.

(** The locals of [updateConnRows]. *)
Definition isIdMinOut (oldIdMin oldIdMax idMin : Z) : bool :=
  (idMin <? oldIdMin) || (idMin >=? oldIdMax).
Definition isIdMaxOut (oldIdMax idMax : Z) : bool :=
  (idMax <? oldIdMax) || (oldIdMax =? 0).
Definition removedCount (oldIdMin idMin : Z) : Z := to_int (sub64 idMin oldIdMin).
Definition addedCount (oldIdMax idMax : Z) : Z := to_int (sub64 idMax oldIdMax).
Definition endRow (oldIdMax idMin : Z) : Z := to_int (add64 (sub64 oldIdMax idMin) 1).

Definition updateConnRows (oldIdMin oldIdMax idMin idMax : Z) : M unit :=
  if isIdMinOut oldIdMin oldIdMax idMin || isIdMaxOut oldIdMax idMax then
    resetConnRows idMin idMax
  else
    when (removedCount oldIdMin idMin >? 0)
      (removeConnRows idMin (removedCount oldIdMin idMin)) ;;
    when (addedCount oldIdMax idMax >? 0)
      (insertConnRows idMax (endRow oldIdMax idMin) (addedCount oldIdMax idMax)).

(** [updateConnIdRange]; [range] is what [getConnIdRange] reports. *)
Definition updateConnIdRange (range : Z * Z) : M unit :=
  oldIdMin <- gets connIdMin ;;
  oldIdMax <- gets connIdMax ;;
  let '(idMin, idMax) := range in
  if (idMin =? oldIdMin) && (idMax =? oldIdMax) then ret tt
  else
    when (idMax =? 0) hostInfoCache_clear ;;
    updateConnRows oldIdMin oldIdMax idMin idMax.

(** ** Reading the event log *)

(** The notifications a view receives: [rowsRemoved], [rowsInserted] and
    the model reset. *)
Definition is_notification (e : Event) : bool :=
  match e with
  | EndRemoveRows | EndInsertRows | ModelReset => true
  | _ => false
  end.

(** Scans a log: [dropped] tells whether the row cache was invalidated
    since the last notification; every notification must find it so. *)
Fixpoint invalidated_before_notify (dropped : bool) (l : list Event) : bool :=
  match l with
  | [] => true
  | InvalidateRowCache :: l' => invalidated_before_notify true l'
  | e :: l' =>
      if is_notification e then dropped && invalidated_before_notify false l'
      else invalidated_before_notify dropped l'
  end.

(** [c] is the [int] that the exact difference [d] converts to: it is in the
    [int] range, differs from [d] by a multiple of 2^32, is [d] itself when
    [d] fits, and is at least 2^32 smaller when [d] is 2^31 or more. *)
Definition converts_to_int (d c : Z) : Prop :=
  is_int c
  /\ c = d - 2 ^ 32 * ((d + 2 ^ 31) / 2 ^ 32)
  /\ (- 2 ^ 31 <= d < 2 ^ 31 -> c = d)
  /\ (2 ^ 31 <= d -> c <= d - 2 ^ 32).

(** A row that was never decoded. *)
Definition nullConnRow : ConnRow :=
  {| connId := 0; appId := 0; connTime := 0; pid := 0; reason := 0;
     blocked := false; inherited := false; inbound := false; ipProto := 0;
     localPort := 0; remotePort := 0; isIPv6 := false;
     localIp := V4 0; remoteIp := V4 0; appPath := EmptyString |}.

(** A model that stores the window [idMin .. idMax] and holds the decode
    of row 0 in its cache. *)
Definition window (idMin idMax : Z) : State :=
  {| m_connIdMin := idMin; m_connIdMax := idMax; m_connRow := nullConnRow;
     rowCache := Some 0; hostInfoCache := [("10.0.0.1", "gateway")]%string |}.

End Model.

Arguments ip_addr_t ip6_addr_t : clear implicits.
Arguments ConnRow ip6_addr_t : clear implicits.
Arguments State ip6_addr_t : clear implicits.
Arguments M ip6_addr_t A : clear implicits.

(** A record of the log: every field is a function of the identifier, the
    address is IPv4. *)
Definition sampleStmt (id : Z) : SqliteStmt :=
  {| columnInt64 := fun c => match c with O => id | _ => 1 end;
     columnInt := fun c => match c with 11%nat => 167772161 | 12%nat => 134744072 | _ => 6 end;
     columnBool := fun _ => false;
     columnUnixTime := fun _ => 1700000000 + id;
     columnIsNull := fun _ => false;
     columnBlob := fun _ => [];
     columnText := fun _ => "app.exe"%string |}.

(** A record with IPv6 addresses: the integer address columns 11 and 12 are
    null, the addresses are the blobs of columns 13 and 14. *)
Definition sampleStmt6 (id : Z) : SqliteStmt :=
  {| columnInt64 := fun c => match c with O => id | _ => 1 end;
     columnInt := fun c => match c with 11%nat | 12%nat => 0 | _ => 6 end;
     columnBool := fun _ => false;
     columnUnixTime := fun _ => 1700000000 + id;
     columnIsNull := fun c => match c with 11%nat | 12%nat => true | _ => false end;
     columnBlob := fun c =>
       match c with
       | 13%nat => repeat Byte.x00 15 ++ [Byte.x01]
       | 14%nat => repeat Byte.x00 15 ++ [Byte.x02]
       | _ => []
       end;
     columnText := fun _ => "app.exe"%string |}.

(** A log that holds the records [idMin .. idMax]. *)
Definition logOf (idMin idMax : Z) : SqliteDb :=
  fun id => if (idMin <=? id) && (id <=? idMax) then Some (sampleStmt id) else None.

(** An instance for the concrete runs: an IPv6 address kept as the first 16
    bytes of the view. *)
Definition ip6_bytes (view : QByteArrayView) : QByteArrayView := firstn 16 view.

Definition win (idMin idMax : Z) : State QByteArrayView := window idMin idMax.

(** ** The display layer *)

(** [Qt::ItemDataRole] and [Qt::Orientation]. *)
Definition DisplayRole : Z := 0.
Definition DecorationRole : Z := 1.
Definition ToolTipRole : Z := 3.

Inductive Orientation : Type := Horizontal | Vertical.

Record QModelIndex : Type := {
  index_isValid : bool;
  index_row : Z;
  index_column : Z
}.

(** An icon, named by the call that yields it: [IconCache::icon(path)] or
    [AppInfoCache::appIcon(appPath)]. *)
Inductive QIcon : Type :=
| IconCache_icon (path : string)
| AppInfoCache_appIcon (appPath : string).

(** [QVariant]; [Invalid] is the empty variant [{}]. *)
Inductive QVariant : Type :=
| Invalid
| VString (text : string)
| VInt (n : Z)
| VDateTime (unixTime : Z)
| VIcon (icon : QIcon).

(** [quint16(x)], the conversion at the [port] parameter of
    [formatIpPort]. *)
Definition to_quint16 (z : Z) : Z := z mod 2 ^ 16.

Definition isEmpty (s : string) : bool :=
  match s with EmptyString => true | _ => false end.

(** [arr[i]] of a C array with the entries [l]; [None] is a read past the
    array, which the language leaves undefined. *)
Definition lookup {A} (l : list A) (i : Z) : option A :=
  if i <? 0 then None else nth_error l (Z.to_nat i).

Section Display.

Context {ip6_addr_t : Type}.

(** What the display functions take from other files: the translation
    [tr], the text and name services reached through [IoC], [QString::number],
    [TableRow::isNull], the two bounds of [FortConnReason] that the tables
    are guarded with, and of the model itself the row that [connRowAt]
    yields (its cache is the base class's) and [resolveAddress()]. *)
Record Env : Type := {
  tr : string -> string;
  ipToText : ip_addr_t ip6_addr_t -> bool -> string;
  hostName : string -> string;
  number : Z -> string;
  appName : string -> string;
  protocolName : Z -> string;
  isNull : ConnRow ip6_addr_t -> bool;
  FORT_CONN_REASON_IP_INET : Z;
  FORT_CONN_REASON_ASK_LIMIT : Z;
  connRowAt : Z -> ConnRow ip6_addr_t;
  resolveAddress : bool
}.

Variable env : Env.

Definition formatIpPort (ip : ip_addr_t ip6_addr_t) (port : Z)
    (isIPv6 resolveAddress : bool) : string :=
  let port := to_quint16 port in
  let address := ipToText env ip isIPv6 in
  let address :=
    if resolveAddress then
      let hostName := hostName env address in
      if negb (isEmpty hostName) then hostName else address
    else address in
  let address := if isIPv6 then ("[" ++ address ++ "]")%string else address in
  (address ++ ":" ++ number env port)%string.

Definition reasonIcons : list string :=
  [":/icons/ip.png"; ":/icons/arrow_refresh_small.png"; ":/icons/application.png";
   ":/icons/application_double.png"; ":/icons/lightbulb.png"; ":/icons/hostname.png";
   ":/icons/ip_class.png"; ":/icons/script.png"; ":/icons/script_code.png";
   ":/icons/script_code_red.png"; ":/icons/help.png"]%string.

Definition reasonIconPath (connRow : ConnRow ip6_addr_t) : option string :=
  if (reason connRow >=? FORT_CONN_REASON_IP_INET env)
     && (reason connRow <=? FORT_CONN_REASON_ASK_LIMIT env) then
    let index := sub32 (reason connRow) (FORT_CONN_REASON_IP_INET env) in
    lookup reasonIcons index
  else Some ":/icons/error.png"%string.

Definition actionIconPath (connRow : ConnRow ip6_addr_t) : string :=
  if blocked connRow then ":/icons/deny.png"%string else ":/icons/accept.png"%string.

Definition directionIconPath (connRow : ConnRow ip6_addr_t) : string :=
  if inbound connRow then ":/icons/green_down.png"%string
  else ":/icons/blue_up.png"%string.

Definition reasonTexts : list string :=
  ["Internet address"; "Old connection"; "Program's action"; "App. Group";
   "Filter Mode"; "LAN only"; "Zone"; "Rule"; "Global Rule before App Rules";
   "Global Rule after App Rules"; "Limit of Ask to Connect"]%string.

Definition reasonText (reason : Z) : option string :=
  if (reason >=? FORT_CONN_REASON_IP_INET env)
     && (reason <=? FORT_CONN_REASON_ASK_LIMIT env) then
    let index := sub32 reason (FORT_CONN_REASON_IP_INET env) in
    option_map (tr env) (lookup reasonTexts index)
  else Some (tr env "Unknown").

(** The cell functions; each takes the row, [resolveAddress] and the
    role. *)
Definition dataDisplay_func : Type := ConnRow ip6_addr_t -> bool -> Z -> option QVariant.

Definition dataDisplayAppName : dataDisplay_func :=
  fun connRow _ _ => Some (VString (appName env (appPath connRow))).

Definition dataDisplayProcessId : dataDisplay_func :=
  fun connRow _ _ => Some (VInt (pid connRow)).

Definition dataDisplayProtocolName : dataDisplay_func :=
  fun connRow _ _ => Some (VString (protocolName env (ipProto connRow))).

Definition dataDisplayLocalIpPort : dataDisplay_func :=
  fun connRow resolveAddress _ =>
    Some (VString (formatIpPort (localIp connRow) (localPort connRow)
                     (isIPv6 connRow) resolveAddress)).

Definition dataDisplayRemoteIpPort : dataDisplay_func :=
  fun connRow resolveAddress _ =>
    Some (VString (formatIpPort (remoteIp connRow) (remotePort connRow)
                     (isIPv6 connRow) resolveAddress)).

Definition dataDisplayDirection : dataDisplay_func :=
  fun connRow _ role =>
    if role =? ToolTipRole then
      Some (VString (if inbound connRow then tr env "In" else tr env "Out"))
    else Some Invalid.

Definition dataDisplayAction : dataDisplay_func :=
  fun connRow _ role =>
    if role =? ToolTipRole then
      Some (VString (if blocked connRow then tr env "Blocked" else tr env "Allowed"))
    else Some Invalid.

Definition dataDisplayReason : dataDisplay_func :=
  fun connRow _ role =>
    if role =? ToolTipRole then
      match reasonText (reason connRow) with
      | Some text =>
          Some (VString (text ++ (if inherited connRow
                                  then " (" ++ tr env "Inherited" ++ ")"
                                  else ""))%string)
      | None => None
      end
    else Some Invalid.

Definition dataDisplayTime : dataDisplay_func :=
  fun connRow _ _ => Some (VDateTime (connTime connRow)).

Definition dataDisplay_funcList : list dataDisplay_func :=
  [dataDisplayAppName; dataDisplayProcessId; dataDisplayProtocolName;
   dataDisplayLocalIpPort; dataDisplayRemoteIpPort; dataDisplayDirection;
   dataDisplayAction; dataDisplayReason; dataDisplayTime].

Definition columnCount : Z := 9.

Definition headerTexts : list (option string) :=
  [Some "Program"; Some "Proc. ID"; Some "Protocol"; Some "Local IP and Port";
   Some "Remote IP and Port"; None; None; None; Some "Time"]%string.

Definition headerTooltips : list (option string) :=
  [Some "Program"; Some "Process ID"; Some "Protocol"; Some "Local IP and Port";
   Some "Remote IP and Port"; Some "Direction"; Some "Action"; Some "Reason";
   Some "Time"]%string.

Definition headerDataDisplay (section role : Z) : option QVariant :=
  if (section >=? 0) && (section <=? 8) then
    let arr := if role =? ToolTipRole then headerTooltips else headerTexts in
    match lookup arr section with
    | None => None
    | Some (Some text) => Some (VString (tr env text))
    | Some None => Some Invalid
    end
  else Some Invalid.

Definition headerDataDecoration (section : Z) : QVariant :=
  if section =? 5 then VIcon (IconCache_icon ":/icons/green_down.png")
  else if section =? 6 then VIcon (IconCache_icon ":/icons/accept.png")
  else if section =? 7 then VIcon (IconCache_icon ":/icons/help.png")
  else Invalid.

Definition headerData (section : Z) (orientation : Orientation) (role : Z)
    : option QVariant :=
  match orientation with
  | Vertical => Some Invalid
  | Horizontal =>
      if (role =? DisplayRole) || (role =? ToolTipRole) then
        headerDataDisplay section role
      else if role =? DecorationRole then Some (headerDataDecoration section)
      else Some Invalid
  end.

Definition dataDisplay (index : QModelIndex) (role : Z) : option QVariant :=
  let row := index_row index in
  let column := index_column index in
  let connRow := connRowAt env row in
  if isNull env connRow then Some Invalid
  else
    match lookup dataDisplay_funcList column with
    | None => None
    | Some func => func connRow (resolveAddress env) role
    end.

Definition dataDecoration (index : QModelIndex) : option QVariant :=
  let column := index_column index in
  let row := index_row index in
  let connRow := connRowAt env row in
  if column =? 0 then Some (VIcon (AppInfoCache_appIcon (appPath connRow)))
  else if column =? 5 then Some (VIcon (IconCache_icon (directionIconPath connRow)))
  else if column =? 6 then Some (VIcon (IconCache_icon (actionIconPath connRow)))
  else if column =? 7 then
    option_map (fun path => VIcon (IconCache_icon path)) (reasonIconPath connRow)
  else Some Invalid.

Definition data (index : QModelIndex) (role : Z) : option QVariant :=
  if negb (index_isValid index) then Some Invalid
  else if (role =? DisplayRole) || (role =? ToolTipRole) then dataDisplay index role
  else if role =? DecorationRole then dataDecoration index
  else Some Invalid.

End Display.

Arguments Env ip6_addr_t : clear implicits.

(** A display environment for the concrete runs: no translation, no
    resolved host names, the reasons 1 to 11, and the rows of the log
    [5 .. 12] behind the window that starts at 5. *)
Definition sampleEnv : Env QByteArrayView :=
  {| tr := fun text => text;
     ipToText := fun ip _ => match ip with V4 _ => "10.0.0.1" | V6 _ => "::1" end%string;
     hostName := fun _ => EmptyString;
     number := fun _ => "443"%string;
     appName := fun path => path;
     protocolName := fun _ => "TCP"%string;
     isNull := fun r => connId r =? 0;
     FORT_CONN_REASON_IP_INET := 1;
     FORT_CONN_REASON_ASK_LIMIT := 11;
     connRowAt := fun row =>
       m_connRow (exec (updateTableRow ip6_bytes (logOf 5 12) row) (win 5 10));
     resolveAddress := true |}.

(** A valid index of the sample environment. *)
Definition cell (row column : Z) : QModelIndex :=
  {| index_isValid := true; index_row := row; index_column := column |}.

(** The edit that a begin call has opened and no end call has closed yet. *)
Inductive Pending : Type := NoEdit | Removing | Inserting.

(** Scans a log for the pairing of the begin and end calls: each begin is
    closed by its own end before the next begin, a reset comes outside a
    pair, and nothing is left open. *)
Fixpoint paired (p : Pending) (l : list Event) : bool :=
  match l with
  | [] => match p with NoEdit => true | _ => false end
  | BeginRemoveRows _ _ :: l' =>
      match p with NoEdit => paired Removing l' | _ => false end
  | EndRemoveRows :: l' =>
      match p with Removing => paired NoEdit l' | _ => false end
  | BeginInsertRows _ _ :: l' =>
      match p with NoEdit => paired Inserting l' | _ => false end
  | EndInsertRows :: l' =>
      match p with Inserting => paired NoEdit l' | _ => false end
  | ModelReset :: l' =>
      match p with NoEdit => paired NoEdit l' | _ => false end
  | _ :: l' => paired p l'
  end.

(** ** Arithmetic of the conversions *)

Module IntFacts.

Lemma to_int_spec z : to_int z = z - 2 ^ 32 * ((z + 2 ^ 31) / 2 ^ 32).
Proof.
  unfold to_int, wrap.
  change (2 ^ (32 - 1)) with (2 ^ 31).
  rewrite Z.mod_eq by (apply Z.pow_nonzero; lia). lia.
Qed.

Lemma to_int_range z : is_int (to_int z).
Proof.
  unfold is_int, to_int, wrap.
  change (2 ^ (32 - 1)) with (2 ^ 31).
  pose proof (Z.mod_pos_bound (z + 2 ^ 31) (2 ^ 32) ltac:(lia)).
  change (2 ^ 32) with (2 * 2 ^ 31) in *. lia.
Qed.

Lemma to_int_small z : is_int z -> to_int z = z.
Proof.
  unfold is_int, to_int, wrap.
  change (2 ^ (32 - 1)) with (2 ^ 31). intros H.
  rewrite Z.mod_small; [lia|].
  change (2 ^ 32) with (2 * 2 ^ 31). lia.
Qed.

Lemma to_qint64_small z : is_qint64 z -> to_qint64 z = z.
Proof.
  unfold is_qint64, to_qint64, wrap.
  change (2 ^ (64 - 1)) with (2 ^ 63). intros H.
  rewrite Z.mod_small; [lia|].
  change (2 ^ 64) with (2 * 2 ^ 63). lia.
Qed.

(** Converting to [int] forgets an earlier 64-bit wrap-around. *)
Lemma to_int_to_qint64 z : to_int (to_qint64 z) = to_int z.
Proof.
  unfold to_int, to_qint64, wrap.
  change (2 ^ (32 - 1)) with (2 ^ 31). change (2 ^ (64 - 1)) with (2 ^ 63).
  f_equal.
  rewrite (Z.mod_eq (z + 2 ^ 63) (2 ^ 64)) by (apply Z.pow_nonzero; lia).
  replace (z + 2 ^ 63 - 2 ^ 64 * ((z + 2 ^ 63) / 2 ^ 64) - 2 ^ 63 + 2 ^ 31)
    with (z + 2 ^ 31 + (- (2 ^ 32 * ((z + 2 ^ 63) / 2 ^ 64))) * 2 ^ 32).
  - apply Z.mod_add. apply Z.pow_nonzero; lia.
  - change (2 ^ 64) with (2 ^ 32 * 2 ^ 32). ring.
Qed.

Lemma to_int_sub64 a b : to_int (sub64 a b) = to_int (a - b).
Proof. unfold sub64. apply to_int_to_qint64. Qed.

Lemma to_int_add64 a b : to_int (add64 a b) = to_int (a + b).
Proof. unfold add64. apply to_int_to_qint64. Qed.

(** Two integers with the same [int] conversion of their sum with [c]. *)
Lemma to_int_add_congr a b c : to_int a = to_int b -> to_int (a + c) = to_int (b + c).
Proof.
  unfold to_int, wrap. change (2 ^ (32 - 1)) with (2 ^ 31). intros H.
  f_equal.
  assert (E : (a + 2 ^ 31) mod 2 ^ 32 = (b + 2 ^ 31) mod 2 ^ 32) by lia.
  replace (a + c + 2 ^ 31) with ((a + 2 ^ 31) + c) by ring.
  replace (b + c + 2 ^ 31) with ((b + 2 ^ 31) + c) by ring.
  rewrite (Z.add_mod (a + 2 ^ 31)), (Z.add_mod (b + 2 ^ 31)) by (apply Z.pow_nonzero; lia).
  now rewrite E.
Qed.

End IntFacts.
Import IntFacts.

(** ** Properties of the model *)

Section Properties.

Context {ip6_addr_t : Type}.
Variable arrayViewToIp6 : QByteArrayView -> ip6_addr_t.

Implicit Types s : State ip6_addr_t.

(** Closes [to_int z = v] when [z] fits an [int] and is [v]. *)
Ltac int_exact := rewrite to_int_small by (unfold is_int; lia); lia.

(** The two tests of [updateConnRows], as propositions. *)
Lemma reset_test_spec oldIdMin oldIdMax idMin idMax :
  isIdMinOut oldIdMin oldIdMax idMin || isIdMaxOut oldIdMax idMax = true
  <-> (idMin < oldIdMin \/ idMin >= oldIdMax \/ idMax < oldIdMax \/ oldIdMax = 0).
Proof.
  unfold isIdMinOut, isIdMaxOut.
  rewrite !orb_true_iff, Z.ltb_lt, Z.geb_le, Z.ltb_lt, Z.eqb_eq. lia.
Qed.

Lemma reset_test_false oldIdMin oldIdMax idMin idMax :
  isIdMinOut oldIdMin oldIdMax idMin || isIdMaxOut oldIdMax idMax = false
  <-> (oldIdMin <= idMin < oldIdMax /\ oldIdMax <= idMax /\ oldIdMax <> 0).
Proof.
  rewrite <- not_true_iff_false, reset_test_spec. lia.
Qed.

Lemma resetConnRows_run idMin idMax s :
  resetConnRows idMin idMax s
  = (tt, set_rowCache None (set_connIdMax idMax (set_connIdMin idMin s)),
     [InvalidateRowCache; ModelReset]).
Proof. reflexivity. Qed.

Lemma removeConnRows_run idMin count s :
  removeConnRows idMin count s
  = (tt, set_rowCache None (set_connIdMin idMin s),
     [BeginRemoveRows 0 (sub32 count 1); InvalidateRowCache; EndRemoveRows]).
Proof. reflexivity. Qed.

Lemma insertConnRows_run idMax row count s :
  insertConnRows idMax row count s
  = (tt, set_rowCache None (set_connIdMax idMax s),
     [BeginInsertRows row (sub32 (add32 row count) 1); InvalidateRowCache;
      EndInsertRows]).
Proof. reflexivity. Qed.

(** Without a reset, [updateConnRows] is the optional removal followed by
    the optional insertion. *)
Lemma updateConnRows_incremental oldIdMin oldIdMax idMin idMax s :
  isIdMinOut oldIdMin oldIdMax idMin || isIdMaxOut oldIdMax idMax = false ->
  updateConnRows oldIdMin oldIdMax idMin idMax s
  = bind (when (removedCount oldIdMin idMin >? 0)
            (removeConnRows idMin (removedCount oldIdMin idMin)))
         (fun _ => when (addedCount oldIdMax idMax >? 0)
            (insertConnRows idMax (endRow oldIdMax idMin) (addedCount oldIdMax idMax))) s.
Proof. intros H. unfold updateConnRows. now rewrite H. Qed.

(** C1. [updateConnRows] resets the model to the new range exactly when the
    new minimum is below the old minimum, or at or above the old maximum, or
    the new maximum is below the old maximum, or the old maximum is 0; the
    reset stores the new range, drops the row cache and notifies. The
    disjoint step from (5,12) to (20,25) is such a reset. *)
Theorem updateConnRows_reset_iff oldIdMin oldIdMax idMin idMax s :
  (In ModelReset (events (updateConnRows oldIdMin oldIdMax idMin idMax) s)
   <-> (idMin < oldIdMin \/ idMin >= oldIdMax \/ idMax < oldIdMax \/ oldIdMax = 0))
  /\ ((idMin < oldIdMin \/ idMin >= oldIdMax \/ idMax < oldIdMax \/ oldIdMax = 0) ->
      updateConnRows oldIdMin oldIdMax idMin idMax s = resetConnRows idMin idMax s
      /\ connIdMin (exec (updateConnRows oldIdMin oldIdMax idMin idMax) s) = idMin
      /\ connIdMax (exec (updateConnRows oldIdMin oldIdMax idMin idMax) s) = idMax)
  /\ updateConnRows 5 12 20 25 s = resetConnRows 20 25 s
  /\ events (updateConnRows 5 12 20 25) s = [InvalidateRowCache; ModelReset].
Proof.
  assert (R : (idMin < oldIdMin \/ idMin >= oldIdMax \/ idMax < oldIdMax \/ oldIdMax = 0) ->
              updateConnRows oldIdMin oldIdMax idMin idMax s = resetConnRows idMin idMax s).
  { intros C. apply reset_test_spec in C. unfold updateConnRows. now rewrite C. }
  split; [split|split; [|split]].
  - intros Hin.
    destruct (isIdMinOut oldIdMin oldIdMax idMin || isIdMaxOut oldIdMax idMax) eqn:T.
    + now apply reset_test_spec.
    + exfalso. revert Hin. unfold events.
      rewrite (updateConnRows_incremental _ _ _ _ _ T). unfold bind, when.
      destruct (removedCount oldIdMin idMin >? 0), (addedCount oldIdMax idMax >? 0);
        simpl; intuition discriminate.
  - intros C. unfold events. rewrite (R C), resetConnRows_run. simpl. auto.
  - intros C. split; [exact (R C)|].
    unfold exec. rewrite (R C), resetConnRows_run. split; reflexivity.
  - reflexivity.
  - reflexivity.
Qed.

(** *** The converted differences *)

Lemma removedCount_eq oldIdMin idMin : removedCount oldIdMin idMin = to_int (idMin - oldIdMin).
Proof. apply to_int_sub64. Qed.

Lemma addedCount_eq oldIdMax idMax : addedCount oldIdMax idMax = to_int (idMax - oldIdMax).
Proof. apply to_int_sub64. Qed.

Lemma idSpan_eq s : idSpan s = to_int (connIdMax s - connIdMin s).
Proof. apply to_int_sub64. Qed.

Lemma endRow_eq oldIdMax idMin : endRow oldIdMax idMin = to_int (oldIdMax - idMin + 1).
Proof.
  unfold endRow. rewrite to_int_add64.
  apply to_int_add_congr, to_int_sub64.
Qed.

Lemma doSqlCount_eq s :
  0 < connIdMax s -> doSqlCount s = to_int (connIdMax s - connIdMin s + 1).
Proof.
  intros H. unfold doSqlCount, add32.
  destruct (Z.leb_spec (connIdMax s) 0); [lia|].
  apply to_int_add_congr. rewrite idSpan_eq.
  apply to_int_small, to_int_range.
Qed.

Lemma to_int_converts d : converts_to_int d (to_int d).
Proof.
  unfold converts_to_int. repeat split.
  - apply to_int_range.
  - apply to_int_range.
  - apply to_int_spec.
  - intros H. now apply to_int_small.
  - intros H. rewrite to_int_spec.
    assert (1 <= (d + 2 ^ 31) / 2 ^ 32).
    { apply Z.div_le_lower_bound; lia. }
    lia.
Qed.

(** C10. The removed count, the added count and the converted difference
    of the row count are the [int] conversions of the exact 64-bit
    differences: each lies in the [int] range, equals the exact difference
    when that is below 2^31 in absolute value, and otherwise differs from it
    by a multiple of 2^32 (a difference of 2^31 or more comes out at least
    2^32 smaller). *)
Theorem counts_convert_to_int oldIdMin oldIdMax idMin idMax s :
  converts_to_int (idMin - oldIdMin) (removedCount oldIdMin idMin)
  /\ converts_to_int (idMax - oldIdMax) (addedCount oldIdMax idMax)
  /\ converts_to_int (connIdMax s - connIdMin s) (idSpan s)
  /\ doSqlCount s = (if connIdMax s <=? 0 then 0 else to_int (idSpan s + 1)).
Proof.
  split; [|split; [|split]].
  - rewrite removedCount_eq. apply to_int_converts.
  - rewrite addedCount_eq. apply to_int_converts.
  - rewrite idSpan_eq. apply to_int_converts.
  - reflexivity.
Qed.


(** *** Incremental edits *)

(** C2, amended. When the stored window has at least two identifiers
    ([0 < oldIdMax] and [oldIdMin < oldIdMax]), the minimum is unchanged, the
    maximum grows by [k > 0] and the new window has fewer than 2^31 rows,
    [updateConnRows] is exactly one insertion: new maximum [idMax], position
    [oldIdMax - idMin + 1], count [k]; afterwards the row count is the old
    one plus [k]. *)
Theorem updateConnRows_grow s k idMax :
  0 < connIdMax s -> connIdMin s < connIdMax s ->
  idMax = connIdMax s + k -> 0 < k ->
  idMax - connIdMin s + 1 < 2 ^ 31 ->
  let run := updateConnRows (connIdMin s) (connIdMax s) (connIdMin s) idMax in
  run s = insertConnRows idMax (connIdMax s - connIdMin s + 1) k s
  /\ events run s
     = [BeginInsertRows (connIdMax s - connIdMin s + 1) (idMax - connIdMin s);
        InvalidateRowCache; EndInsertRows]
  /\ connIdMin (exec run s) = connIdMin s
  /\ connIdMax (exec run s) = idMax
  /\ doSqlCount (exec run s) = doSqlCount s + k.
Proof.
  intros Hpos Hlt Hmax Hk Hfit run.
  assert (T : isIdMinOut (connIdMin s) (connIdMax s) (connIdMin s)
              || isIdMaxOut (connIdMax s) idMax = false)
    by (apply reset_test_false; lia).
  assert (Rm : removedCount (connIdMin s) (connIdMin s) = 0).
  { rewrite removedCount_eq, Z.sub_diag. reflexivity. }
  assert (Ad : addedCount (connIdMax s) idMax = k).
  { rewrite addedCount_eq. int_exact. }
  assert (Er : endRow (connIdMax s) (connIdMin s) = connIdMax s - connIdMin s + 1).
  { rewrite endRow_eq. int_exact. }
  assert (Ls : sub32 (add32 (connIdMax s - connIdMin s + 1) k) 1 = idMax - connIdMin s).
  { unfold sub32, add32. rewrite (to_int_small (_ + k)) by (unfold is_int; lia).
    rewrite to_int_small by (unfold is_int; lia). lia. }
  assert (E : run s = insertConnRows idMax (connIdMax s - connIdMin s + 1) k s).
  { unfold run. rewrite (updateConnRows_incremental _ _ _ _ _ T), Rm, Ad, Er.
    destruct (Z.gtb_spec k 0); [|lia].
    unfold bind, when, ret. simpl. rewrite insertConnRows_run. reflexivity. }
  split; [exact E|].
  unfold events, exec. rewrite E, insertConnRows_run, Ls. simpl.
  repeat split.
  rewrite !doSqlCount_eq by (simpl; lia). simpl.
  rewrite !to_int_small by (unfold is_int; unfold connIdMax, connIdMin in *; lia).
  unfold connIdMax, connIdMin in *. lia.
Qed.

(** C3, amended. When the old maximum is not 0, the minimum advances by [k]
    with [0 < k < oldIdMax - oldIdMin] and [k < 2^31], and the maximum is
    unchanged, [updateConnRows] is exactly one removal: new minimum [idMin],
    count [k]; afterwards row 0 is fetched with the identifier [idMin]. *)
Theorem updateConnRows_trim s k idMin :
  is_qint64 idMin ->
  connIdMax s <> 0 ->
  idMin = connIdMin s + k -> 0 < k < connIdMax s - connIdMin s -> k < 2 ^ 31 ->
  let run := updateConnRows (connIdMin s) (connIdMax s) idMin (connIdMax s) in
  run s = removeConnRows idMin k s
  /\ events run s = [BeginRemoveRows 0 (k - 1); InvalidateRowCache; EndRemoveRows]
  /\ connIdMin (exec run s) = idMin
  /\ connIdMax (exec run s) = connIdMax s
  /\ rowConnId (exec run s) 0 = idMin.
Proof.
  intros Hid Hne Hmin Hk Hfit run.
  assert (T : isIdMinOut (connIdMin s) (connIdMax s) idMin
              || isIdMaxOut (connIdMax s) (connIdMax s) = false)
    by (apply reset_test_false; lia).
  assert (Rm : removedCount (connIdMin s) idMin = k).
  { rewrite removedCount_eq. int_exact. }
  assert (Ad : addedCount (connIdMax s) (connIdMax s) = 0).
  { rewrite addedCount_eq, Z.sub_diag. reflexivity. }
  assert (Ls : sub32 k 1 = k - 1).
  { unfold sub32. int_exact. }
  assert (E : run s = removeConnRows idMin k s).
  { unfold run. rewrite (updateConnRows_incremental _ _ _ _ _ T), Rm, Ad.
    destruct (Z.gtb_spec k 0); [|lia].
    unfold bind, when, ret. simpl. rewrite removeConnRows_run.
    reflexivity. }
  split; [exact E|].
  unfold events, exec. rewrite E, removeConnRows_run, Ls. simpl.
  repeat split.
  unfold rowConnId, add64. simpl. rewrite Z.add_0_r. now apply to_qint64_small.
Qed.

(** When [updateConnRows] does not reset and both of its [int] counts are
    positive, it removes first and inserts second, at the position
    [int(oldIdMax - idMin + 1)] with the new minimum. *)
Lemma updateConnRows_remove_then_insert oldIdMin oldIdMax idMin idMax s :
  ~ (idMin < oldIdMin \/ idMin >= oldIdMax \/ idMax < oldIdMax \/ oldIdMax = 0) ->
  0 < removedCount oldIdMin idMin ->
  0 < addedCount oldIdMax idMax ->
  let run := updateConnRows oldIdMin oldIdMax idMin idMax in
  let removed := removedCount oldIdMin idMin in
  let added := addedCount oldIdMax idMax in
  let row := endRow oldIdMax idMin in
  run s = bind (removeConnRows idMin removed)
               (fun _ => insertConnRows idMax row added) s
  /\ events run s
     = [BeginRemoveRows 0 (sub32 removed 1); InvalidateRowCache; EndRemoveRows;
        BeginInsertRows row (sub32 (add32 row added) 1); InvalidateRowCache;
        EndInsertRows]
  /\ connIdMin (exec run s) = idMin
  /\ connIdMax (exec run s) = idMax
  /\ row = to_int (oldIdMax - idMin + 1)
  /\ (oldIdMax - idMin + 1 < 2 ^ 31 -> row = oldIdMax - idMin + 1).
Proof.
  intros Hno Hrm Had run removed added row.
  assert (T : isIdMinOut oldIdMin oldIdMax idMin || isIdMaxOut oldIdMax idMax = false).
  { apply not_true_iff_false. now rewrite reset_test_spec. }
  assert (E : run s = bind (removeConnRows idMin removed)
                           (fun _ => insertConnRows idMax row added) s).
  { unfold run. rewrite (updateConnRows_incremental _ _ _ _ _ T).
    fold removed added row.
    destruct (Z.gtb_spec removed 0); [|lia].
    destruct (Z.gtb_spec added 0); [|lia].
    reflexivity. }
  split; [exact E|].
  unfold events, exec. rewrite E. unfold bind.
  rewrite removeConnRows_run, insertConnRows_run. simpl.
  repeat split.
  - apply endRow_eq.
  - intros Hfit. unfold row. rewrite endRow_eq.
    apply reset_test_false in T. int_exact.
Qed.

(** C4, amended. When a range change is not a reset, both differences
    [idMin - oldIdMin] and [idMax - oldIdMax] are positive, and they and
    [oldIdMax - idMin + 1] are below 2^31 (they fit the [int] they are
    stored in), [updateConnRows] removes [idMin - oldIdMin] rows first and
    inserts [idMax - oldIdMax] rows second, and the insertion position is
    exactly the old maximum minus the new minimum plus one. *)
Theorem updateConnRows_trim_then_grow oldIdMin oldIdMax idMin idMax s :
  ~ (idMin < oldIdMin \/ idMin >= oldIdMax \/ idMax < oldIdMax \/ oldIdMax = 0) ->
  0 < idMin - oldIdMin < 2 ^ 31 ->
  0 < idMax - oldIdMax < 2 ^ 31 ->
  oldIdMax - idMin + 1 < 2 ^ 31 ->
  let run := updateConnRows oldIdMin oldIdMax idMin idMax in
  let removed := idMin - oldIdMin in
  let added := idMax - oldIdMax in
  let row := oldIdMax - idMin + 1 in
  removedCount oldIdMin idMin = removed
  /\ addedCount oldIdMax idMax = added
  /\ endRow oldIdMax idMin = row
  /\ run s = bind (removeConnRows idMin removed)
                  (fun _ => insertConnRows idMax row added) s
  /\ events run s
     = [BeginRemoveRows 0 (removed - 1); InvalidateRowCache; EndRemoveRows;
        BeginInsertRows row (sub32 (add32 row added) 1); InvalidateRowCache;
        EndInsertRows]
  /\ connIdMin (exec run s) = idMin
  /\ connIdMax (exec run s) = idMax.
Proof.
  intros Hno Hrm Had Hrow run removed added row.
  assert (R : removedCount oldIdMin idMin = removed).
  { rewrite removedCount_eq. unfold removed. int_exact. }
  assert (A : addedCount oldIdMax idMax = added).
  { rewrite addedCount_eq. unfold added. int_exact. }
  assert (P : endRow oldIdMax idMin = row).
  { rewrite endRow_eq. unfold row.
    assert (idMin < oldIdMax) by lia. int_exact. }
  assert (L : sub32 removed 1 = removed - 1).
  { unfold sub32, removed. int_exact. }
  destruct (updateConnRows_remove_then_insert oldIdMin oldIdMax idMin idMax s Hno)
    as (E & V & Smin & Smax & _); [rewrite R; unfold removed; lia
                                  |rewrite A; unfold added; lia|].
  rewrite R, A, P in E, V. rewrite L in V.
  split; [exact R|]. split; [exact A|]. split; [exact P|].
  split; [exact E|]. split; [exact V|]. split; [exact Smin|exact Smax].
Qed.

(** *** The row cache and the host-name cache *)

(** The four shapes of a run of [updateConnRows]. *)
Lemma updateConnRows_cases oldIdMin oldIdMax idMin idMax s :
  let run := updateConnRows oldIdMin oldIdMax idMin idMax in
  let removed := removedCount oldIdMin idMin in
  let added := addedCount oldIdMax idMax in
  let row := endRow oldIdMax idMin in
  run s = resetConnRows idMin idMax s
  \/ run s = (tt, s, [])
  \/ run s = removeConnRows idMin removed s
  \/ run s = insertConnRows idMax row added s
  \/ run s = bind (removeConnRows idMin removed)
                  (fun _ => insertConnRows idMax row added) s.
Proof.
  intros run removed added row. unfold run, updateConnRows.
  destruct (isIdMinOut oldIdMin oldIdMax idMin || isIdMaxOut oldIdMax idMax);
    [now left|right].
  fold removed added row. unfold bind, when.
  destruct (removed >? 0), (added >? 0).
  - do 3 right. reflexivity.
  - right. left. rewrite removeConnRows_run. reflexivity.
  - do 2 right. left. unfold ret. rewrite insertConnRows_run. reflexivity.
  - left. reflexivity.
Qed.

(** C7. Each of the three bound-changing edits drops the row cache whatever
    the state and the arguments, and does so before its notification
    ([rowsRemoved], [rowsInserted], model reset) is emitted; hence in every
    run of [updateConnRows] each notification finds the cache dropped, and a
    run that changes the stored bounds leaves the cache empty. *)
Theorem edits_invalidate_row_cache s :
  (forall idMin count,
      rowCache (exec (removeConnRows idMin count) s) = None
      /\ events (removeConnRows idMin count) s
         = [BeginRemoveRows 0 (sub32 count 1); InvalidateRowCache; EndRemoveRows])
  /\ (forall idMax row count,
      rowCache (exec (insertConnRows idMax row count) s) = None
      /\ events (insertConnRows idMax row count) s
         = [BeginInsertRows row (sub32 (add32 row count) 1); InvalidateRowCache;
            EndInsertRows])
  /\ (forall idMin idMax,
      rowCache (exec (resetConnRows idMin idMax) s) = None
      /\ events (resetConnRows idMin idMax) s = [InvalidateRowCache; ModelReset])
  /\ (forall oldIdMin oldIdMax idMin idMax,
      let run := updateConnRows oldIdMin oldIdMax idMin idMax in
      invalidated_before_notify false (events run s) = true
      /\ ((connIdMin (exec run s) <> connIdMin s \/ connIdMax (exec run s) <> connIdMax s) ->
          rowCache (exec run s) = None)).
Proof.
  split; [|split; [|split]]; try (intros; split; reflexivity).
  intros oldIdMin oldIdMax idMin idMax run.
  destruct (updateConnRows_cases oldIdMin oldIdMax idMin idMax s)
    as [E|[E|[E|[E|E]]]];
    fold run in E; unfold events, exec; rewrite E;
    split; try reflexivity; simpl; intros [H|H]; try reflexivity;
    exfalso; apply H; reflexivity.
Qed.

(** [updateConnRows] neither clears nor changes the host-name cache. *)
Lemma updateConnRows_hostInfoCache oldIdMin oldIdMax idMin idMax s :
  let run := updateConnRows oldIdMin oldIdMax idMin idMax in
  hostInfoCache (exec run s) = hostInfoCache s
  /\ ~ In HostInfoCacheClear (events run s).
Proof.
  intros run.
  destruct (updateConnRows_cases oldIdMin oldIdMax idMin idMax s)
    as [E|[E|[E|[E|E]]]];
    fold run in E; unfold events, exec; rewrite E;
    (split; [reflexivity|simpl; intuition discriminate]).
Qed.

(** C9. When [updateConnIdRange] observes a range that differs from the
    stored one and whose maximum is 0, it clears the host-name cache first
    and updates the rows after; when the observed maximum is not 0, or the
    range is unchanged, the host-name cache is left as it was and is not
    cleared. *)
Theorem updateConnIdRange_hostInfoCache idMin idMax s :
  let run := updateConnIdRange (idMin, idMax) in
  let rows := updateConnRows (connIdMin s) (connIdMax s) idMin idMax in
  ((idMin <> connIdMin s \/ idMax <> connIdMax s) -> idMax = 0 ->
      hostInfoCache (exec run s) = []
      /\ events run s = HostInfoCacheClear :: events rows (set_hostInfoCache [] s)
      /\ ~ In HostInfoCacheClear (events rows (set_hostInfoCache [] s)))
  /\ ((idMax <> 0 \/ (idMin = connIdMin s /\ idMax = connIdMax s)) ->
      hostInfoCache (exec run s) = hostInfoCache s
      /\ ~ In HostInfoCacheClear (events run s)).
Proof.
  intros run rows. split.
  - intros Hd H0.
    assert (T : (idMin =? connIdMin s) && (idMax =? connIdMax s) = false).
    { apply andb_false_iff. rewrite !Z.eqb_neq. exact Hd. }
    pose proof (updateConnRows_hostInfoCache (connIdMin s) (connIdMax s) idMin idMax
                  (set_hostInfoCache [] s)) as [F N].
    unfold run, updateConnIdRange, bind, gets, events, exec in *. simpl.
    rewrite T. apply Z.eqb_eq in H0. rewrite H0. unfold when, hostInfoCache_clear, bind, modify, emit.
    simpl.
    destruct (updateConnRows (connIdMin s) (connIdMax s) idMin idMax
                (set_hostInfoCache [] s)) as [[u s'] l] eqn:E.
    simpl in *. fold rows. unfold rows. rewrite E. simpl. auto.
  - intros H.
    unfold run, updateConnIdRange, bind, gets, events, exec. simpl.
    destruct ((idMin =? connIdMin s) && (idMax =? connIdMax s)) eqn:T.
    + simpl. auto.
    + assert (Hne : (idMax =? 0) = false).
      { apply Z.eqb_neq. apply andb_false_iff in T. rewrite !Z.eqb_neq in T. lia. }
      rewrite Hne. unfold when, ret. simpl.
      pose proof (updateConnRows_hostInfoCache (connIdMin s) (connIdMax s) idMin idMax s)
        as [F N].
      unfold events, exec in *.
      destruct (updateConnRows (connIdMin s) (connIdMax s) idMin idMax s) as [[u s'] l].
      simpl in *. auto.
Qed.

(** *** Reading a row *)

(** C8. The decoded row's address family is the null test on column 11 of
    the fetched record; when it holds, both addresses are the IPv6 values
    made from the blobs of columns 13 and 14, and when it does not, both are
    the IPv4 values of the integer columns 11 and 12: the two addresses of a
    row are never of different families. [updateTableRow] stores exactly
    this row. *)
Theorem readConnRow_address_family stmt :
  let r := readConnRow arrayViewToIp6 stmt in
  isIPv6 r = columnIsNull stmt 11
  /\ (isIPv6 r = true ->
      localIp r = V6 (arrayViewToIp6 (columnBlob stmt 13))
      /\ remoteIp r = V6 (arrayViewToIp6 (columnBlob stmt 14)))
  /\ (isIPv6 r = false ->
      localIp r = V4 (columnInt stmt 11) /\ remoteIp r = V4 (columnInt stmt 12))
  /\ (forall db row s,
      db (rowConnId s row) = Some stmt ->
      m_connRow (exec (updateTableRow arrayViewToIp6 db row) s) = r).
Proof.
  intros r. unfold r, readConnRow. simpl.
  split; [reflexivity|].
  split; [intros ->; split; reflexivity|].
  split; [intros ->; split; reflexivity|].
  intros db row s Hdb. unfold exec, updateTableRow, bind, gets. simpl.
  rewrite Hdb. reflexivity.
Qed.

(** C6, amended. [updateTableRow] checks no range: for every row index, in
    or outside [0, doSqlCount), the identifier fetched is the 64-bit sum
    [connIdMin + row]; the read succeeds and stores the decoded record when
    the log has a record with that identifier, and otherwise returns false
    and leaves the model as it was. No call raises an error. *)
Theorem updateTableRow_any_row db row s :
  rowConnId s row = to_qint64 (connIdMin s + row)
  /\ (is_qint64 (connIdMin s + row) -> rowConnId s row = connIdMin s + row)
  /\ updateTableRow arrayViewToIp6 db row s
     = match db (rowConnId s row) with
       | Some stmt => (true, set_connRow (readConnRow arrayViewToIp6 stmt) s, [])
       | None => (false, s, [])
       end.
Proof.
  split; [reflexivity|].
  split; [intros H; now apply to_qint64_small|].
  unfold updateTableRow, bind, gets. simpl.
  destruct (db (rowConnId s row)); reflexivity.
Qed.

End Properties.


(** ** Further properties of the range tracking *)

Section RangeProperties.

Context {ip6_addr_t : Type}.
Variable arrayViewToIp6 : QByteArrayView -> ip6_addr_t.

Implicit Types s : State ip6_addr_t.

(** Rewrites [to_int z] to [z] when [z] fits an [int]. *)
Ltac fits_int := rewrite to_int_small by (unfold is_int; lia).

(** What an incremental run does to the state, by the signs of the two
    counts. *)
Lemma updateConnRows_incremental_exec oldIdMin oldIdMax idMin idMax s :
  isIdMinOut oldIdMin oldIdMax idMin || isIdMaxOut oldIdMax idMax = false ->
  let s1 := if removedCount oldIdMin idMin >? 0
            then set_rowCache None (set_connIdMin idMin s) else s in
  exec (updateConnRows oldIdMin oldIdMax idMin idMax) s
  = if addedCount oldIdMax idMax >? 0
    then set_rowCache None (set_connIdMax idMax s1) else s1.
Proof.
  intros T s1. unfold exec. rewrite (updateConnRows_incremental _ _ _ _ _ T).
  unfold s1, bind, when, ret.
  destruct (removedCount oldIdMin idMin >? 0), (addedCount oldIdMax idMax >? 0);
    reflexivity.
Qed.

(** When the arguments [oldIdMin], [oldIdMax] are the stored range and the
    two differences fit an [int], [updateConnRows] leaves the new range
    stored. *)
Lemma updateConnRows_stores idMin idMax s :
  idMin - connIdMin s < 2 ^ 31 -> idMax - connIdMax s < 2 ^ 31 ->
  connIdMin (exec (updateConnRows (connIdMin s) (connIdMax s) idMin idMax) s) = idMin
  /\ connIdMax (exec (updateConnRows (connIdMin s) (connIdMax s) idMin idMax) s) = idMax.
Proof.
  intros Hmin Hmax.
  destruct (isIdMinOut (connIdMin s) (connIdMax s) idMin
            || isIdMaxOut (connIdMax s) idMax) eqn:T.
  - unfold exec, updateConnRows. rewrite T, resetConnRows_run. split; reflexivity.
  - rewrite (updateConnRows_incremental_exec _ _ _ _ _ T).
    apply reset_test_false in T.
    rewrite removedCount_eq, addedCount_eq. fits_int. fits_int.
    destruct (Z.gtb_spec (idMin - connIdMin s) 0), (Z.gtb_spec (idMax - connIdMax s) 0);
      unfold connIdMin, connIdMax in *; simpl; lia.
Qed.

(** X1. Observing a range whose distance from the stored one fits an
    [int] leaves exactly that range stored, and observing it once more
    changes nothing and emits nothing. *)
Theorem updateConnIdRange_sync idMin idMax s :
  idMin - connIdMin s < 2 ^ 31 -> idMax - connIdMax s < 2 ^ 31 ->
  let s' := exec (updateConnIdRange (idMin, idMax)) s in
  connIdMin s' = idMin
  /\ connIdMax s' = idMax
  /\ updateConnIdRange (idMin, idMax) s' = (tt, s', []).
Proof.
  intros Hmin Hmax s'.
  assert (S : connIdMin s' = idMin /\ connIdMax s' = idMax).
  { unfold s', exec, updateConnIdRange, bind, gets. simpl.
    destruct ((idMin =? connIdMin s) && (idMax =? connIdMax s)) eqn:T.
    - apply andb_true_iff in T. rewrite !Z.eqb_eq in T. simpl. lia.
    - unfold when.
      destruct (idMax =? 0).
      + pose proof (updateConnRows_stores idMin idMax (set_hostInfoCache [] s) Hmin Hmax)
          as R.
        unfold exec in R. unfold hostInfoCache_clear, bind, modify, emit. simpl.
        change (connIdMin (set_hostInfoCache [] s)) with (connIdMin s) in R.
        change (connIdMax (set_hostInfoCache [] s)) with (connIdMax s) in R.
        destruct (updateConnRows (connIdMin s) (connIdMax s) idMin idMax
                    (set_hostInfoCache [] s)) as [[u t] l].
        exact R.
      + pose proof (updateConnRows_stores idMin idMax s Hmin Hmax) as R.
        unfold exec in R. unfold ret. simpl.
        destruct (updateConnRows (connIdMin s) (connIdMax s) idMin idMax s) as [[u t] l].
        exact R. }
  destruct S as [Smin Smax]. split; [exact Smin|]. split; [exact Smax|].
  unfold updateConnIdRange, bind, gets. simpl.
  rewrite Smin, Smax, !Z.eqb_refl. reflexivity.
Qed.

(** The exact values of an incremental change when the old window and the
    new window each have fewer than 2^31 rows. *)
Lemma updateConnRows_fit_facts idMin idMax s :
  0 < connIdMax s ->
  connIdMin s <= idMin < connIdMax s -> connIdMax s <= idMax ->
  connIdMax s - connIdMin s + 1 < 2 ^ 31 ->
  idMax - idMin + 1 < 2 ^ 31 ->
  let s' := exec (updateConnRows (connIdMin s) (connIdMax s) idMin idMax) s in
  removedCount (connIdMin s) idMin = idMin - connIdMin s
  /\ addedCount (connIdMax s) idMax = idMax - connIdMax s
  /\ doSqlCount s = connIdMax s - connIdMin s + 1
  /\ connIdMin s' = idMin
  /\ connIdMax s' = idMax
  /\ doSqlCount s' = idMax - idMin + 1.
Proof.
  intros Hpos Hmin Hmax Hold Hnew s'.
  pose proof (updateConnRows_stores idMin idMax s ltac:(lia) ltac:(lia)) as [Smin Smax].
  fold s' in Smin, Smax.
  split; [rewrite removedCount_eq; now fits_int|].
  split; [rewrite addedCount_eq; now fits_int|].
  split; [rewrite doSqlCount_eq by assumption; now fits_int|].
  split; [exact Smin|]. split; [exact Smax|].
  rewrite doSqlCount_eq by lia. rewrite Smin, Smax. now fits_int.
Qed.


(** X3. In the same setting (no reset, stored maximum above 0, old and new
    window each of fewer than 2^31 rows), for identifiers of 64 bits: row
    [row] of the new model is fetched with the identifier that row
    [row + removed] of the old model had, and the rows that were already
    there are those below the old row count minus the removed rows. *)
Theorem updateConnRows_row_shift idMin idMax s :
  is_qint64 (connIdMin s) -> is_qint64 idMax ->
  0 < connIdMax s ->
  connIdMin s <= idMin < connIdMax s -> connIdMax s <= idMax ->
  connIdMax s - connIdMin s + 1 < 2 ^ 31 ->
  idMax - idMin + 1 < 2 ^ 31 ->
  let removed := removedCount (connIdMin s) idMin in
  let s' := exec (updateConnRows (connIdMin s) (connIdMax s) idMin idMax) s in
  forall row, 0 <= row < doSqlCount s' ->
    rowConnId s' row = rowConnId s (row + removed)
    /\ rowConnId s' row = idMin + row
    /\ (row < doSqlCount s - removed <-> rowConnId s' row <= connIdMax s).
Proof.
  intros Imin Imax Hpos Hmin Hmax Hold Hnew removed s' row Hrow.
  destruct (updateConnRows_fit_facts idMin idMax s Hpos Hmin Hmax Hold Hnew)
    as (R & _ & D & Smin & _ & C).
  fold removed in R. fold s' in Smin, C.
  unfold rowConnId, add64. rewrite Smin.
  unfold is_qint64 in *.
  rewrite !to_qint64_small by (unfold is_qint64; lia).
  lia.
Qed.

(** X4. When the model stores a maximum above 0 and the log is observed
    empty (maximum 0), [updateConnIdRange] clears the host-name cache, then
    resets: the row cache is dropped, the observed range is stored and the
    row count is 0. *)
Theorem updateConnIdRange_emptied_log idMin s :
  0 < connIdMax s ->
  let run := updateConnIdRange (idMin, 0) in
  events run s = [HostInfoCacheClear; InvalidateRowCache; ModelReset]
  /\ hostInfoCache (exec run s) = []
  /\ rowCache (exec run s) = None
  /\ connIdMin (exec run s) = idMin
  /\ connIdMax (exec run s) = 0
  /\ doSqlCount (exec run s) = 0.
Proof.
  intros Hpos run.
  assert (E : run s = (tt, set_rowCache None (set_connIdMax 0 (set_connIdMin idMin
                             (set_hostInfoCache [] s))),
                       [HostInfoCacheClear; InvalidateRowCache; ModelReset])).
  { assert (T : (idMin =? connIdMin s) && (0 =? connIdMax s) = false).
    { apply andb_false_iff. right. apply Z.eqb_neq. lia. }
    assert (O : isIdMaxOut (connIdMax s) 0 = true).
    { unfold isIdMaxOut. apply orb_true_iff. left. apply Z.ltb_lt. lia. }
    unfold run, updateConnIdRange, bind, gets.
    cbv beta iota zeta. rewrite T.
    unfold when, hostInfoCache_clear, bind, modify, emit, updateConnRows.
    cbv beta iota zeta. change (0 =? 0) with true. cbv beta iota zeta.
    rewrite O, orb_true_r, resetConnRows_run. reflexivity. }
  unfold events, exec. rewrite E. simpl. repeat split.
Qed.

(** X5. When the log answers a query for an identifier with the record of
    that identifier, a successful [updateTableRow] leaves in [m_connRow] a
    row whose [connId] is the identifier of the row index read; the read
    changes neither the stored range, nor the row count, nor the caches, and
    emits nothing. *)
Theorem updateTableRow_round_trip (db : SqliteDb) row s :
  (forall id stmt, db id = Some stmt -> columnInt64 stmt 0 = id) ->
  value (updateTableRow arrayViewToIp6 db row) s = true ->
  let s' := exec (updateTableRow arrayViewToIp6 db row) s in
  connId (m_connRow s') = rowConnId s row
  /\ connIdMin s' = connIdMin s
  /\ connIdMax s' = connIdMax s
  /\ doSqlCount s' = doSqlCount s
  /\ rowCache s' = rowCache s
  /\ hostInfoCache s' = hostInfoCache s
  /\ events (updateTableRow arrayViewToIp6 db row) s = [].
Proof.
  intros Hdb Hok s'. revert Hok.
  unfold s', value, exec, events, updateTableRow, bind, gets.
  cbv beta iota zeta.
  destruct (db (rowConnId s row)) as [stmt|] eqn:F; simpl.
  - intros _. rewrite (Hdb _ _ F). repeat split.
  - discriminate.
Qed.

(** The events of [updateConnIdRange] are those of [updateConnRows],
    after the clearing of the host-name cache if there is one. *)
Lemma updateConnIdRange_events idMin idMax s :
  events (updateConnIdRange (idMin, idMax)) s = []
  \/ exists s1,
       connIdMin s1 = connIdMin s /\ connIdMax s1 = connIdMax s
       /\ (events (updateConnIdRange (idMin, idMax)) s
           = events (updateConnRows (connIdMin s) (connIdMax s) idMin idMax) s1
           \/ events (updateConnIdRange (idMin, idMax)) s
              = HostInfoCacheClear
                  :: events (updateConnRows (connIdMin s) (connIdMax s) idMin idMax) s1).
Proof.
  unfold events at 1 2 4, updateConnIdRange, bind, gets. cbv beta iota zeta.
  destruct ((idMin =? connIdMin s) && (idMax =? connIdMax s)); [left; reflexivity|].
  right. unfold when. destruct (idMax =? 0).
  - exists (set_hostInfoCache [] s). split; [reflexivity|]. split; [reflexivity|].
    right. unfold hostInfoCache_clear, bind, modify, emit, events. cbv beta iota zeta.
    destruct (updateConnRows (connIdMin s) (connIdMax s) idMin idMax
                (set_hostInfoCache [] s)) as [[u t] l].
    reflexivity.
  - exists s. split; [reflexivity|]. split; [reflexivity|].
    left. unfold ret, events.
    destruct (updateConnRows (connIdMin s) (connIdMax s) idMin idMax s) as [[u t] l].
    reflexivity.
Qed.

Lemma updateConnRows_paired oldIdMin oldIdMax idMin idMax s :
  paired NoEdit (events (updateConnRows oldIdMin oldIdMax idMin idMax) s) = true.
Proof.
  destruct (updateConnRows_cases oldIdMin oldIdMax idMin idMax s)
    as [E|[E|[E|[E|E]]]];
    unfold events; rewrite E; reflexivity.
Qed.

(** A changed range whose differences fit an [int] is notified. *)
Lemma updateConnRows_notifies oldIdMin oldIdMax idMin idMax s :
  idMin <> oldIdMin \/ idMax <> oldIdMax ->
  idMin - oldIdMin < 2 ^ 31 -> idMax - oldIdMax < 2 ^ 31 ->
  existsb is_notification (events (updateConnRows oldIdMin oldIdMax idMin idMax) s)
  = true.
Proof.
  intros Hd Hmin Hmax.
  destruct (isIdMinOut oldIdMin oldIdMax idMin || isIdMaxOut oldIdMax idMax) eqn:T.
  - unfold events, updateConnRows. rewrite T. reflexivity.
  - unfold events. rewrite (updateConnRows_incremental _ _ _ _ _ T).
    apply reset_test_false in T.
    rewrite removedCount_eq, addedCount_eq. fits_int. fits_int.
    unfold bind, when, ret.
    destruct (Z.gtb_spec (idMin - oldIdMin) 0), (Z.gtb_spec (idMax - oldIdMax) 0);
      try reflexivity.
    lia.
Qed.

(** X11. In every run of [updateConnIdRange] the begin and end calls are
    paired: a removal is closed before an insertion is opened, a reset comes
    outside a pair and nothing stays open. When the observed range differs
    from the stored one and the differences fit an [int], the run emits a
    notification. *)
Theorem updateConnIdRange_events_paired idMin idMax s :
  paired NoEdit (events (updateConnIdRange (idMin, idMax)) s) = true
  /\ ((idMin <> connIdMin s \/ idMax <> connIdMax s) ->
      idMin - connIdMin s < 2 ^ 31 -> idMax - connIdMax s < 2 ^ 31 ->
      existsb is_notification (events (updateConnIdRange (idMin, idMax)) s) = true).
Proof.
  split.
  - destruct (updateConnIdRange_events idMin idMax s) as [E|(s1 & _ & _ & [E|E])];
      rewrite E; [reflexivity| |]; simpl; apply updateConnRows_paired.
  - intros Hd Hmin Hmax.
    destruct (updateConnIdRange_events idMin idMax s) as [E|(s1 & _ & _ & [E|E])].
    + exfalso. revert E.
      unfold events, updateConnIdRange, bind, gets. cbv beta iota zeta.
      replace ((idMin =? connIdMin s) && (idMax =? connIdMax s)) with false
        by (symmetry; apply andb_false_iff; rewrite !Z.eqb_neq; exact Hd).
      pose proof (updateConnRows_notifies (connIdMin s) (connIdMax s) idMin idMax)
        as N.
      unfold when. destruct (idMax =? 0).
      * unfold hostInfoCache_clear, bind, modify, emit. cbv beta iota zeta.
        destruct (updateConnRows (connIdMin s) (connIdMax s) idMin idMax
                    (set_hostInfoCache [] s)) as [[u t] l].
        discriminate.
      * specialize (N s Hd Hmin Hmax). unfold events in N. unfold ret.
        destruct (updateConnRows (connIdMin s) (connIdMax s) idMin idMax s)
          as [[u t] l].
        simpl. intros ->. discriminate N.
    + rewrite E. now apply updateConnRows_notifies.
    + rewrite E. simpl. now apply updateConnRows_notifies.
Qed.

End RangeProperties.


(** ** Properties of the display layer *)

Section DisplayProperties.

Context {ip6_addr_t : Type}.
Variable env : Env ip6_addr_t.

Lemma lookup_outside {A} (l : list A) (i : Z) :
  i < 0 \/ Z.of_nat (List.length l) <= i -> lookup l i = None.
Proof.
  intros H. unfold lookup. destruct (Z.ltb_spec i 0); [reflexivity|].
  apply nth_error_None. lia.
Qed.

Lemma lookup_inside {A} (l : list A) (i : Z) :
  0 <= i < Z.of_nat (List.length l) -> lookup l i = nth_error l (Z.to_nat i).
Proof.
  intros H. unfold lookup. destruct (Z.ltb_spec i 0); [lia|reflexivity].
Qed.

(** Splits [0 <= i <= 10] into its eleven cases. *)
Ltac eleven i H :=
  assert (i = 0 \/ i = 1 \/ i = 2 \/ i = 3 \/ i = 4 \/ i = 5 \/ i = 6 \/ i = 7
          \/ i = 8 \/ i = 9 \/ i = 10) as H by lia.

(** Splits [0 <= i < 9] into its nine cases. *)
Ltac nine i H :=
  assert (i = 0 \/ i = 1 \/ i = 2 \/ i = 3 \/ i = 4 \/ i = 5 \/ i = 6 \/ i = 7
          \/ i = 8) as H by (unfold columnCount in *; lia).

(** The guard of the two reason tables. *)
Lemma reason_guard r :
  (r >=? FORT_CONN_REASON_IP_INET env) && (r <=? FORT_CONN_REASON_ASK_LIMIT env) = true
  <-> FORT_CONN_REASON_IP_INET env <= r <= FORT_CONN_REASON_ASK_LIMIT env.
Proof. rewrite andb_true_iff, Z.geb_le, Z.leb_le. lia. Qed.

Lemma reason_index r :
  FORT_CONN_REASON_ASK_LIMIT env - FORT_CONN_REASON_IP_INET env < 2 ^ 31 ->
  FORT_CONN_REASON_IP_INET env <= r <= FORT_CONN_REASON_ASK_LIMIT env ->
  sub32 r (FORT_CONN_REASON_IP_INET env) = r - FORT_CONN_REASON_IP_INET env.
Proof. intros S G. unfold sub32. apply to_int_small. unfold is_int. lia. Qed.

(** X9. A reason outside the guarded span gets the text "Unknown" and the
    error icon. When the span has at most eleven reasons, a reason inside it
    gets the entries of the two tables at the same index, its distance from
    the first reason, and the icon is not the error icon. When the span is
    longer, the last reason is read past both tables. *)
Theorem reason_tables (connRow : ConnRow ip6_addr_t) :
  let r := reason connRow in
  let lo := FORT_CONN_REASON_IP_INET env in
  let hi := FORT_CONN_REASON_ASK_LIMIT env in
  ((r < lo \/ hi < r) ->
     reasonText env r = Some (tr env "Unknown")
     /\ reasonIconPath env connRow = Some ":/icons/error.png"%string)
  /\ (hi - lo <= 10 -> lo <= r <= hi ->
      exists text path,
        nth_error reasonTexts (Z.to_nat (r - lo)) = Some text
        /\ reasonText env r = Some (tr env text)
        /\ nth_error reasonIcons (Z.to_nat (r - lo)) = Some path
        /\ reasonIconPath env connRow = Some path
        /\ path <> ":/icons/error.png"%string)
  /\ (11 <= hi - lo < 2 ^ 31 -> r = hi ->
      reasonText env r = None /\ reasonIconPath env connRow = None).
Proof.
  intros r lo hi. split; [|split].
  - intros Hout.
    assert (G : (r >=? lo) && (r <=? hi) = false).
    { apply not_true_iff_false. unfold lo, hi. rewrite reason_guard. fold lo hi. lia. }
    unfold reasonText, reasonIconPath. fold r lo hi. rewrite G. split; reflexivity.
  - intros Hspan Hin.
    assert (G : (r >=? lo) && (r <=? hi) = true) by (apply reason_guard; exact Hin).
    assert (I : sub32 r lo = r - lo) by (apply reason_index; fold lo hi; lia).
    unfold reasonText, reasonIconPath. fold r lo hi. rewrite G, I.
    rewrite !lookup_inside by (simpl; lia).
    eleven (r - lo) C.
    repeat (destruct C as [C|C]); rewrite C; simpl;
      do 2 eexists; repeat split; discriminate.
  - intros Hspan Hr.
    assert (G : (r >=? lo) && (r <=? hi) = true) by (apply reason_guard; fold lo hi; lia).
    assert (I : sub32 r lo = r - lo) by (apply reason_index; fold lo hi; lia).
    unfold reasonText, reasonIconPath. fold r lo hi. rewrite G, I.
    rewrite !lookup_outside by (simpl; lia). split; reflexivity.
Qed.

(** Under the same bound on the span no reason reads past a table. *)
Lemma reasonText_defined r :
  FORT_CONN_REASON_ASK_LIMIT env - FORT_CONN_REASON_IP_INET env <= 10 ->
  reasonText env r <> None.
Proof.
  intros Hspan. unfold reasonText.
  destruct ((r >=? FORT_CONN_REASON_IP_INET env)
            && (r <=? FORT_CONN_REASON_ASK_LIMIT env)) eqn:G; [|discriminate].
  apply reason_guard in G.
  rewrite reason_index by lia. rewrite lookup_inside by (simpl; lia).
  eleven (r - FORT_CONN_REASON_IP_INET env) C.
  repeat (destruct C as [C|C]); rewrite C; discriminate.
Qed.

Lemma reasonIconPath_defined (connRow : ConnRow ip6_addr_t) :
  FORT_CONN_REASON_ASK_LIMIT env - FORT_CONN_REASON_IP_INET env <= 10 ->
  reasonIconPath env connRow <> None.
Proof.
  intros Hspan. unfold reasonIconPath.
  destruct ((reason connRow >=? FORT_CONN_REASON_IP_INET env)
            && (reason connRow <=? FORT_CONN_REASON_ASK_LIMIT env)) eqn:G; [|discriminate].
  apply reason_guard in G.
  rewrite reason_index by lia. rewrite lookup_inside by (simpl; lia).
  eleven (reason connRow - FORT_CONN_REASON_IP_INET env) C.
  repeat (destruct C as [C|C]); rewrite C; discriminate.
Qed.

(** The header's text of a section, by role. *)
Lemma headerDataDisplay_guarded section role :
  0 <= section < columnCount ->
  headerDataDisplay env section role
  = match nth_error (if role =? ToolTipRole then headerTooltips else headerTexts)
            (Z.to_nat section) with
    | Some (Some text) => Some (VString (tr env text))
    | _ => Some Invalid
    end.
Proof.
  intros H. unfold headerDataDisplay.
  replace ((section >=? 0) && (section <=? 8)) with true
    by (symmetry; apply andb_true_iff; rewrite Z.geb_le, Z.leb_le;
        unfold columnCount in H; lia).
  nine section C.
  destruct (role =? ToolTipRole);
    repeat (destruct C as [C|C]); rewrite C; reflexivity.
Qed.

(** X6. The header never reads past its tables. It is empty for the
    vertical orientation and for a section outside the nine columns. Each
    of the nine sections has a tool tip; its display text is empty exactly
    when it has an icon, and those are the sections 5, 6 and 7. *)
Theorem headerData_columns section orientation role :
  headerData env section orientation role <> None
  /\ ((orientation = Vertical \/ section < 0 \/ columnCount <= section) ->
      headerData env section orientation role = Some Invalid)
  /\ (0 <= section < columnCount ->
      (exists text, headerData env section Horizontal ToolTipRole
                    = Some (VString (tr env text)))
      /\ (headerData env section Horizontal DisplayRole = Some Invalid
          <-> exists icon, headerData env section Horizontal DecorationRole
                           = Some (VIcon icon))
      /\ (headerData env section Horizontal DisplayRole = Some Invalid
          <-> 5 <= section <= 7)).
Proof.
  assert (Out : section < 0 \/ columnCount <= section ->
                forall r, headerDataDisplay env section r = Some Invalid
                          /\ headerDataDecoration section = Invalid).
  { intros H r. unfold headerDataDisplay, headerDataDecoration, columnCount in *.
    replace ((section >=? 0) && (section <=? 8)) with false
      by (symmetry; apply andb_false_iff; rewrite Z.geb_leb, !Z.leb_gt; lia).
    split; [reflexivity|].
    destruct (Z.eqb_spec section 5); [lia|].
    destruct (Z.eqb_spec section 6); [lia|].
    destruct (Z.eqb_spec section 7); [lia|reflexivity]. }
  split; [|split].
  - unfold headerData. destruct orientation; [|discriminate].
    destruct ((role =? DisplayRole) || (role =? ToolTipRole)).
    + destruct (Z.lt_ge_cases section 0) as [L|L];
        [rewrite (proj1 (Out (or_introl L) role)); discriminate|].
      destruct (Z.lt_ge_cases section columnCount) as [U|U];
        [|rewrite (proj1 (Out (or_intror U) role)); discriminate].
      rewrite headerDataDisplay_guarded by lia.
      destruct (nth_error _ _) as [[t|]|]; discriminate.
    + destruct (role =? DecorationRole); discriminate.
  - intros [->|H]; [reflexivity|].
    unfold headerData. destruct orientation; [|reflexivity].
    destruct (Out H role) as [D I]. rewrite D, I.
    destruct ((role =? DisplayRole) || (role =? ToolTipRole)); [reflexivity|].
    destruct (role =? DecorationRole); reflexivity.
  - intros H. unfold headerData.
    change ((ToolTipRole =? DisplayRole) || (ToolTipRole =? ToolTipRole)) with true.
    change ((DisplayRole =? DisplayRole) || (DisplayRole =? ToolTipRole)) with true.
    change ((DecorationRole =? DisplayRole) || (DecorationRole =? ToolTipRole))
      with false.
    change (DecorationRole =? DecorationRole) with true.
    cbv beta iota.
    rewrite !headerDataDisplay_guarded by exact H.
    change (ToolTipRole =? ToolTipRole) with true.
    change (DisplayRole =? ToolTipRole) with false.
    cbv beta iota. unfold headerDataDecoration.
    nine section C.
    repeat (destruct C as [C|C]); rewrite C; simpl;
      (split; [eexists; reflexivity|]);
      (split; split; intros K;
       first [ lia | reflexivity | discriminate K | eexists; reflexivity
             | destruct K as [? K]; discriminate K ]).
Qed.

(** The cell text of a column for a row that is not null. *)
Lemma dataDisplay_guarded index role :
  0 <= index_column index < columnCount ->
  isNull env (connRowAt env (index_row index)) = false ->
  dataDisplay env index role
  = match nth_error (dataDisplay_funcList env) (Z.to_nat (index_column index)) with
    | Some func => func (connRowAt env (index_row index)) (resolveAddress env) role
    | None => None
    end.
Proof.
  intros H N. unfold dataDisplay. cbv zeta. rewrite N.
  rewrite lookup_inside by (simpl; unfold columnCount in H; lia). reflexivity.
Qed.

(** X7. For a valid index in one of the nine columns and a row that is not
    null: the display role returns a variant read inside the dispatch
    table, which is the empty variant exactly when the header's display
    text of that column is the empty variant, that is in the columns 5, 6
    and 7. The tool tip role returns a variant that is not the empty one in
    every column but 7, and in column 7 too when the reason span has at most
    eleven reasons. *)
Theorem data_display_columns index :
  index_isValid index = true ->
  0 <= index_column index < columnCount ->
  isNull env (connRowAt env (index_row index)) = false ->
  (exists v, data env index DisplayRole = Some v)
  /\ (data env index DisplayRole = Some Invalid
      <-> headerData env (index_column index) Horizontal DisplayRole = Some Invalid)
  /\ (data env index DisplayRole = Some Invalid <-> 5 <= index_column index <= 7)
  /\ ((index_column index <> 7
       \/ FORT_CONN_REASON_ASK_LIMIT env - FORT_CONN_REASON_IP_INET env <= 10) ->
      exists v, data env index ToolTipRole = Some v /\ v <> Invalid).
Proof.
  intros V H N.
  unfold data, headerData. rewrite V.
  change ((DisplayRole =? DisplayRole) || (DisplayRole =? ToolTipRole)) with true.
  change ((ToolTipRole =? DisplayRole) || (ToolTipRole =? ToolTipRole)) with true.
  cbv beta iota. change (negb true) with false. cbv beta iota.
  rewrite !dataDisplay_guarded by assumption.
  rewrite headerDataDisplay_guarded by assumption.
  change (DisplayRole =? ToolTipRole) with false. cbv beta iota.
  nine (index_column index) C.
  repeat (destruct C as [C|C]); rewrite C; simpl;
    unfold dataDisplayDirection, dataDisplayAction, dataDisplayReason;
    change (DisplayRole =? ToolTipRole) with false;
    change (ToolTipRole =? ToolTipRole) with true;
    cbv beta iota;
    (split; [eexists; reflexivity|]);
    (split; [split; intros K; first [reflexivity | discriminate K]|]);
    (split; [split; intros K; first [lia | reflexivity | discriminate K]|]);
    intros S;
    try (eexists; split; [reflexivity|discriminate]).
  destruct S as [S|S]; [lia|].
  pose proof (reasonText_defined (reason (connRowAt env (index_row index))) S) as D.
  destruct (reasonText env _) as [text|]; [|contradiction].
  eexists; split; [reflexivity|discriminate].
Qed.

(** X8. For a valid index whose row is null, the display text and the tool
    tip are empty in every column, also outside the nine, because the row
    is tested before the dispatch table is read; the decoration does not
    test the row and still gives an icon in the columns 0, 5 and 6. *)
Theorem data_null_row index :
  index_isValid index = true ->
  isNull env (connRowAt env (index_row index)) = true ->
  data env index DisplayRole = Some Invalid
  /\ data env index ToolTipRole = Some Invalid
  /\ ((index_column index = 0 \/ index_column index = 5 \/ index_column index = 6) ->
      exists icon, data env index DecorationRole = Some (VIcon icon)).
Proof.
  intros V N. unfold data. rewrite V.
  change ((DisplayRole =? DisplayRole) || (DisplayRole =? ToolTipRole)) with true.
  change ((ToolTipRole =? DisplayRole) || (ToolTipRole =? ToolTipRole)) with true.
  change ((DecorationRole =? DisplayRole) || (DecorationRole =? ToolTipRole))
    with false.
  change (DecorationRole =? DecorationRole) with true.
  change (negb true) with false. cbv beta iota.
  unfold dataDisplay. cbv zeta. rewrite N.
  split; [reflexivity|]. split; [reflexivity|].
  unfold dataDecoration. cbv zeta.
  intros [C|[C|C]]; rewrite C; simpl; eexists; reflexivity.
Qed.

(** X10. When the reason span has at most eleven reasons and every valid
    index has its column among the nine, [data] never reads past a table,
    whatever the role. The bound on the column is needed: for a valid index
    outside the nine columns and a row that is not null, the display text
    is read past the dispatch table. *)
Theorem data_table_reads index :
  (FORT_CONN_REASON_ASK_LIMIT env - FORT_CONN_REASON_IP_INET env <= 10 ->
   (index_isValid index = true -> 0 <= index_column index < columnCount) ->
   forall role, data env index role <> None)
  /\ (index_isValid index = true ->
      isNull env (connRowAt env (index_row index)) = false ->
      (index_column index < 0 \/ columnCount <= index_column index) ->
      data env index DisplayRole = None).
Proof.
  split.
  - intros Hspan Hcol role. unfold data.
    destruct (index_isValid index); [|discriminate].
    specialize (Hcol eq_refl). change (negb true) with false. cbv beta iota.
    destruct ((role =? DisplayRole) || (role =? ToolTipRole)).
    + destruct (isNull env (connRowAt env (index_row index))) eqn:N.
      * unfold dataDisplay. cbv zeta. rewrite N. discriminate.
      * rewrite dataDisplay_guarded by assumption.
        nine (index_column index) C.
        repeat (destruct C as [C|C]); rewrite C; simpl;
          unfold dataDisplayDirection, dataDisplayAction, dataDisplayReason;
          try discriminate;
          try (destruct (role =? ToolTipRole); discriminate).
        destruct (role =? ToolTipRole); [|discriminate].
        pose proof (reasonText_defined (reason (connRowAt env (index_row index))) Hspan).
        destruct (reasonText env _); [discriminate|contradiction].
    + destruct (role =? DecorationRole); [|discriminate].
      unfold dataDecoration. cbv zeta.
      destruct (index_column index =? 0); [discriminate|].
      destruct (index_column index =? 5); [discriminate|].
      destruct (index_column index =? 6); [discriminate|].
      destruct (index_column index =? 7); [|discriminate].
      pose proof (reasonIconPath_defined (connRowAt env (index_row index)) Hspan).
      destruct (reasonIconPath env _); [discriminate|contradiction].
  - intros V N H. unfold data. rewrite V.
    change ((DisplayRole =? DisplayRole) || (DisplayRole =? ToolTipRole)) with true.
    change (negb true) with false. cbv beta iota.
    unfold dataDisplay. cbv zeta. rewrite N.
    rewrite lookup_outside by (simpl; unfold columnCount in H; lia). reflexivity.
Qed.

End DisplayProperties.

(** ** Concrete runs *)

(** Decides a closed comparison or equation by evaluation. *)
Ltac by_eval := vm_compute; repeat split; first [reflexivity | discriminate].

(** The growth of scenario B: (5,10) then (5,12). *)
Lemma updateConnRows_grow_witness :
  events (updateConnRows 5 10 5 12) (win 5 10)
  = [BeginInsertRows 6 7; InvalidateRowCache; EndInsertRows]
  /\ doSqlCount (win 5 10) = 6
  /\ doSqlCount (exec (updateConnRows 5 10 5 12) (win 5 10)) = 8.
Proof.
  destruct (updateConnRows_grow (win 5 10) 2 12) as (_ & E & _ & _ & C);
    [by_eval ..|].
  split; [exact E|]. split; [reflexivity|exact C].
Defined.

(** Two steps that satisfy the hypotheses of the growth property as the spec
    states it. A window of one row, (5,5), observed as (5,6), is reset
    instead of grown. The window (1,10) observed as (1,10+2^31), with
    k = 2^31: the added count converts to a negative [int], nothing is
    emitted and the row count stays 10. *)
Lemma updateConnRows_grow_counterexample :
  (0 < connIdMax (win 5 5)
   /\ 6 = connIdMax (win 5 5) + 1
   /\ updateConnRows 5 5 5 6 (win 5 5) = resetConnRows 5 6 (win 5 5)
   /\ events (updateConnRows 5 5 5 6) (win 5 5) = [InvalidateRowCache; ModelReset]
   /\ events (updateConnRows 5 5 5 6) (win 5 5)
      <> events (insertConnRows 6 (5 - 5 + 1) 1) (win 5 5))
  /\ (0 < connIdMax (win 1 10)
      /\ 2147483658 = connIdMax (win 1 10) + 2147483648
      /\ addedCount 10 2147483658 = -2147483648
      /\ events (updateConnRows 1 10 1 2147483658) (win 1 10) = []
      /\ doSqlCount (exec (updateConnRows 1 10 1 2147483658) (win 1 10)) = 10).
Proof. by_eval. Qed.

(** The trim of scenario C: (5,12) then (8,12). *)
Lemma updateConnRows_trim_witness :
  events (updateConnRows 5 12 8 12) (win 5 12)
  = [BeginRemoveRows 0 2; InvalidateRowCache; EndRemoveRows]
  /\ rowConnId (exec (updateConnRows 5 12 8 12) (win 5 12)) 0 = 8.
Proof.
  destruct (updateConnRows_trim (win 5 12) 3 8) as (_ & E & _ & _ & R);
    [by_eval ..|].
  split; [exact E|exact R].
Defined.

(** Two steps that satisfy the hypotheses of the trim property as the spec
    states it. From (-5,0) to (-3,0), with k = 2, the old maximum is 0 and
    the model is reset. From (1,2^32) to (2^31+1,2^32), with k = 2^31, the
    removed count converts to a negative [int]: nothing is emitted, the
    stored minimum stays 1 and row 0 is still fetched with identifier 1. *)
Lemma updateConnRows_trim_counterexample :
  (0 < 2 < 0 - -5
   /\ events (updateConnRows (-5) 0 (-3) 0) (win (-5) 0)
      = [InvalidateRowCache; ModelReset])
  /\ (0 < 2147483648 < 4294967296 - 1
      /\ removedCount 1 2147483649 = -2147483648
      /\ events (updateConnRows 1 4294967296 2147483649 4294967296) (win 1 4294967296)
         = []
      /\ rowConnId
           (exec (updateConnRows 1 4294967296 2147483649 4294967296) (win 1 4294967296))
           0 = 1).
Proof. by_eval. Qed.

(** A removal followed by an insertion: (5,10) then (7,12). *)
Lemma updateConnRows_trim_then_grow_witness :
  events (updateConnRows 5 10 7 12) (win 5 10)
  = [BeginRemoveRows 0 1; InvalidateRowCache; EndRemoveRows;
     BeginInsertRows 4 5; InvalidateRowCache; EndInsertRows]
  /\ endRow 10 7 = 10 - 7 + 1.
Proof.
  destruct (updateConnRows_trim_then_grow 5 10 7 12 (win 5 10))
    as (_ & _ & R & _ & E & _).
  - vm_compute. intros [H|[H|[H|H]]]; try discriminate H; apply H; reflexivity.
  - by_eval.
  - by_eval.
  - by_eval.
  - split; [exact E|exact R].
Defined.

(** Two steps that are no reset and have both differences positive. From
    (1,2^32) to (2^31+1,2^32+1) the removed difference is 2^31: the removed
    count converts to a negative [int], no removal is applied, and the one
    row is inserted at position -2^31, not at 2^31. From (1,10) to
    (2,10+2^31) the added difference is 2^31: the row is removed and nothing
    is inserted. *)
Lemma updateConnRows_trim_then_grow_counterexample :
  (0 < 2147483649 - 1
   /\ 0 < 4294967297 - 4294967296
   /\ isIdMinOut 1 4294967296 2147483649 || isIdMaxOut 4294967296 4294967297 = false
   /\ removedCount 1 2147483649 = -2147483648
   /\ events (updateConnRows 1 4294967296 2147483649 4294967297) (win 1 4294967296)
      = [BeginInsertRows (-2147483648) (-2147483648); InvalidateRowCache;
         EndInsertRows]
   /\ 4294967296 - 2147483649 + 1 = 2147483648)
  /\ (0 < 2 - 1
      /\ 0 < 2147483658 - 10
      /\ isIdMinOut 1 10 2 || isIdMaxOut 10 2147483658 = false
      /\ addedCount 10 2147483658 = -2147483648
      /\ events (updateConnRows 1 10 2 2147483658) (win 1 10)
         = [BeginRemoveRows 0 0; InvalidateRowCache; EndRemoveRows]).
Proof. by_eval. Qed.



(** The model stores (5,10), six rows, while the log already holds the
    records 5 to 12: reading row 6, outside [0,6), succeeds and decodes
    record 11; reading row -1 returns false. Neither raises an error. *)
Lemma updateTableRow_out_of_range_counterexample :
  doSqlCount (win 5 10) = 6
  /\ value (updateTableRow ip6_bytes (logOf 5 12) 6) (win 5 10) = true
  /\ connId (m_connRow (exec (updateTableRow ip6_bytes (logOf 5 12) 6) (win 5 10))) = 11
  /\ updateTableRow ip6_bytes (logOf 5 12) (-1) (win 5 10) = (false, win 5 10, []).
Proof. by_eval. Qed.

(** The reset of scenario D, and the growth of scenario B, which is none. *)
Lemma updateConnRows_reset_iff_witness :
  In ModelReset (events (updateConnRows 5 12 20 25) (win 5 12))
  /\ ~ In ModelReset (events (updateConnRows 5 10 5 12) (win 5 10))
  /\ connIdMin (exec (updateConnRows 5 12 20 25) (win 5 12)) = 20
  /\ connIdMax (exec (updateConnRows 5 12 20 25) (win 5 12)) = 25.
Proof.
  destruct (updateConnRows_reset_iff 5 12 20 25 (win 5 12)) as ([_ I] & R & _).
  destruct (updateConnRows_reset_iff 5 10 5 12 (win 5 10)) as ([N _] & _).
  assert (C : 20 < 5 \/ 20 >= 12 \/ 25 < 12 \/ 12 = 0) by (right; left; by_eval).
  split; [exact (I C)|].
  split; [intros H; specialize (N H); lia|].
  destruct (R C) as (_ & A & B). split; [exact A|exact B].
Defined.

(** The removed count of 3, and the one of 2^31, which comes out negative. *)
Lemma counts_convert_to_int_witness :
  removedCount 5 8 = 3
  /\ addedCount 10 12 = 2
  /\ idSpan (win 5 10) = 5
  /\ removedCount 1 2147483649 <= 2147483648 - 2 ^ 32.
Proof.
  destruct (counts_convert_to_int 5 10 8 12 (win 5 10))
    as ((_ & _ & R & _) & (_ & _ & A & _) & (_ & _ & S & _) & _).
  destruct (counts_convert_to_int 1 10 2147483649 12 (win 5 10))
    as ((_ & _ & _ & W) & _).
  split; [apply R; by_eval|].
  split; [apply A; by_eval|].
  split; [apply S; by_eval|].
  apply W. by_eval.
Defined.

(** The growth of scenario B changes the bounds and leaves the cache, which
    held row 0, empty. *)
Lemma edits_invalidate_row_cache_witness :
  rowCache (win 5 10) = Some 0
  /\ rowCache (exec (updateConnRows 5 10 5 12) (win 5 10)) = None
  /\ invalidated_before_notify false (events (updateConnRows 5 10 7 12) (win 5 10)) = true.
Proof.
  destruct (edits_invalidate_row_cache (win 5 10)) as (_ & _ & _ & U).
  split; [reflexivity|]. split.
  - apply (U 5 10 5 12). right. by_eval.
  - apply (U 5 10 7 12).
Defined.

(** An emptied log, (0,0), clears the host-name cache and then resets; a
    grown log, (5,12), leaves it alone. *)
Lemma updateConnIdRange_hostInfoCache_witness :
  hostInfoCache (exec (updateConnIdRange (0, 0)) (win 5 10)) = []
  /\ events (updateConnIdRange (0, 0)) (win 5 10)
     = [HostInfoCacheClear; InvalidateRowCache; ModelReset]
  /\ hostInfoCache (exec (updateConnIdRange (5, 12)) (win 5 10))
     = hostInfoCache (win 5 10)
  /\ ~ In HostInfoCacheClear (events (updateConnIdRange (5, 12)) (win 5 10)).
Proof.
  destruct (updateConnIdRange_hostInfoCache 0 0 (win 5 10)) as (C & _).
  destruct (updateConnIdRange_hostInfoCache 5 12 (win 5 10)) as (_ & K).
  destruct C as (C1 & C2 & _); [left; by_eval|reflexivity|].
  destruct K as (K1 & K2); [left; by_eval|].
  split; [exact C1|]. split; [exact C2|]. split; [exact K1|exact K2].
Defined.

(** An IPv6 record and an IPv4 record. *)
Lemma readConnRow_address_family_witness :
  (isIPv6 (readConnRow ip6_bytes (sampleStmt6 7)) = true
   /\ localIp (readConnRow ip6_bytes (sampleStmt6 7))
      = V6 (repeat Byte.x00 15 ++ [Byte.x01])
   /\ remoteIp (readConnRow ip6_bytes (sampleStmt6 7))
      = V6 (repeat Byte.x00 15 ++ [Byte.x02]))
  /\ (isIPv6 (readConnRow ip6_bytes (sampleStmt 7)) = false
      /\ localIp (readConnRow ip6_bytes (sampleStmt 7)) = V4 167772161
      /\ remoteIp (readConnRow ip6_bytes (sampleStmt 7)) = V4 134744072).
Proof.
  destruct (readConnRow_address_family ip6_bytes (sampleStmt6 7)) as (D6 & A6 & _).
  destruct (readConnRow_address_family ip6_bytes (sampleStmt 7)) as (D4 & _ & A4 & _).
  split.
  - split; [exact D6|]. exact (A6 D6).
  - split; [exact D4|]. exact (A4 D4).
Defined.

(** Row 2 of the window (5,10) is fetched with identifier 7. *)
Lemma updateTableRow_any_row_witness :
  rowConnId (win 5 10) 2 = 7
  /\ value (updateTableRow ip6_bytes (logOf 5 10) 2) (win 5 10) = true
  /\ connId (m_connRow (exec (updateTableRow ip6_bytes (logOf 5 10) 2) (win 5 10))) = 7.
Proof.
  destruct (updateTableRow_any_row ip6_bytes (logOf 5 10) 2 (win 5 10)) as (_ & I & E).
  split; [apply I; by_eval|].
  unfold value, exec. rewrite E. split; reflexivity.
Defined.

(** Scenario A through [updateConnIdRange]: the empty log, then (1,1). *)
Example scenario_first_population :
  events (updateConnIdRange (1, 1)) (win 0 0) = [InvalidateRowCache; ModelReset]
  /\ doSqlCount (win 0 0) = 0
  /\ doSqlCount (exec (updateConnIdRange (1, 1)) (win 0 0)) = 1
  /\ rowConnId (exec (updateConnIdRange (1, 1)) (win 0 0)) 0 = 1.
Proof. by_eval. Qed.

(** *** Runs of the further properties *)

(** The sample log answers with the record that was asked for. *)
Lemma logOf_sound idMin idMax id stmt :
  logOf idMin idMax id = Some stmt -> columnInt64 stmt 0 = id.
Proof.
  unfold logOf. destruct ((idMin <=? id) && (id <=? idMax)); [|discriminate].
  intros H. injection H as <-. reflexivity.
Defined.

(** (5,10) observed as (5,12), twice. *)
Lemma updateConnIdRange_sync_witness :
  connIdMin (exec (updateConnIdRange (5, 12)) (win 5 10)) = 5
  /\ connIdMax (exec (updateConnIdRange (5, 12)) (win 5 10)) = 12
  /\ events (updateConnIdRange (5, 12)) (exec (updateConnIdRange (5, 12)) (win 5 10))
     = [].
Proof.
  destruct (updateConnIdRange_sync 5 12 (win 5 10)) as (A & B & C); [by_eval ..|].
  split; [exact A|]. split; [exact B|].
  unfold events. rewrite C. reflexivity.
Defined.


(** After that change row 1 is what row 3 was, identifier 8. *)
Lemma updateConnRows_row_shift_witness :
  rowConnId (exec (updateConnRows 5 10 7 12) (win 5 10)) 1 = rowConnId (win 5 10) 3
  /\ rowConnId (exec (updateConnRows 5 10 7 12) (win 5 10)) 1 = 8.
Proof.
  destruct (updateConnRows_row_shift 7 12 (win 5 10)) with (row := 1) as (S & I & _);
    [by_eval ..|].
  split; [exact S|exact I].
Defined.

(** The window (5,10) and an emptied log. *)
Lemma updateConnIdRange_emptied_log_witness :
  events (updateConnIdRange (0, 0)) (win 5 10)
  = [HostInfoCacheClear; InvalidateRowCache; ModelReset]
  /\ doSqlCount (exec (updateConnIdRange (0, 0)) (win 5 10)) = 0.
Proof.
  destruct (updateConnIdRange_emptied_log 0 (win 5 10)) as (E & _ & _ & _ & _ & C);
    [by_eval|].
  split; [exact E|exact C].
Defined.

(** Row 2 of the window (5,10) decodes the record 7. *)
Lemma updateTableRow_round_trip_witness :
  connId (m_connRow (exec (updateTableRow ip6_bytes (logOf 5 12) 2) (win 5 10))) = 7
  /\ events (updateTableRow ip6_bytes (logOf 5 12) 2) (win 5 10) = [].
Proof.
  destruct (updateTableRow_round_trip ip6_bytes (logOf 5 12) 2 (win 5 10))
    as (R & _ & _ & _ & _ & _ & E).
  - intros id stmt. apply logOf_sound.
  - reflexivity.
  - split; [exact R|exact E].
Defined.

(** The header of section 0 and of section 6. *)
Lemma headerData_columns_witness :
  (exists text, headerData sampleEnv 0 Horizontal ToolTipRole = Some (VString text))
  /\ headerData sampleEnv 6 Horizontal DisplayRole = Some Invalid
  /\ headerData sampleEnv 9 Horizontal DisplayRole = Some Invalid.
Proof.
  destruct (headerData_columns sampleEnv 0 Horizontal ToolTipRole) as (_ & _ & T).
  destruct (headerData_columns sampleEnv 6 Horizontal DisplayRole) as (_ & _ & D).
  destruct (headerData_columns sampleEnv 9 Horizontal DisplayRole) as (_ & O & _).
  destruct T as (T & _); [by_eval|].
  destruct D as (_ & _ & D); [by_eval|].
  split; [exact T|]. split; [apply D; by_eval|]. apply O. right. right. by_eval.
Defined.

(** Row 2 of the sample: the local endpoint has a text, the action column
    has none but has a tool tip, and so has the reason column. *)
Lemma data_display_columns_witness :
  data sampleEnv (cell 2 3) DisplayRole <> Some Invalid
  /\ data sampleEnv (cell 2 6) DisplayRole = Some Invalid
  /\ (exists v, data sampleEnv (cell 2 6) ToolTipRole = Some v /\ v <> Invalid)
  /\ (exists v, data sampleEnv (cell 2 7) ToolTipRole = Some v /\ v <> Invalid).
Proof.
  destruct (data_display_columns sampleEnv (cell 2 3)) as (_ & _ & A & _);
    [by_eval ..|].
  destruct (data_display_columns sampleEnv (cell 2 6)) as (_ & _ & B & T);
    [by_eval ..|].
  destruct (data_display_columns sampleEnv (cell 2 7)) as (_ & _ & _ & R);
    [by_eval ..|].
  split; [|split; [|split]].
  - intros K. apply A in K. simpl in K. lia.
  - apply B. by_eval.
  - apply T. left. by_eval.
  - apply R. right. by_eval.
Defined.

(** Row 20 of the sample has no record: no text, but the action icon. *)
Lemma data_null_row_witness :
  data sampleEnv (cell 20 6) DisplayRole = Some Invalid
  /\ data sampleEnv (cell 20 6) ToolTipRole = Some Invalid
  /\ exists icon, data sampleEnv (cell 20 6) DecorationRole = Some (VIcon icon).
Proof.
  destruct (data_null_row sampleEnv (cell 20 6)) as (D & T & I); [by_eval ..|].
  split; [exact D|]. split; [exact T|]. apply I. right. right. reflexivity.
Defined.

(** Reason 6 of the sample's records, and reason 0. *)
Lemma reason_tables_witness :
  (exists text path,
      nth_error reasonTexts 5 = Some text
      /\ reasonText sampleEnv 6 = Some text
      /\ nth_error reasonIcons 5 = Some path
      /\ reasonIconPath sampleEnv (connRowAt sampleEnv 2) = Some path
      /\ path <> ":/icons/error.png"%string)
  /\ reasonIconPath sampleEnv (@nullConnRow QByteArrayView)
     = Some ":/icons/error.png"%string.
Proof.
  destruct (reason_tables sampleEnv (connRowAt sampleEnv 2)) as (_ & I & _).
  destruct (reason_tables sampleEnv (@nullConnRow QByteArrayView)) as (O & _).
  split.
  - apply I; by_eval.
  - apply O. left. by_eval.
Defined.

(** In the sample no cell of the nine columns reads past a table; column 9
    does. *)
Lemma data_table_reads_witness :
  data sampleEnv (cell 2 7) ToolTipRole <> None
  /\ data sampleEnv (cell 2 7) DecorationRole <> None
  /\ data sampleEnv (cell 2 9) DisplayRole = None.
Proof.
  destruct (data_table_reads sampleEnv (cell 2 7)) as (S & _).
  destruct (data_table_reads sampleEnv (cell 2 9)) as (_ & P).
  assert (R : forall role, data sampleEnv (cell 2 7) role <> None).
  { apply S; [by_eval|]. intros _. by_eval. }
  split; [apply R|]. split; [apply R|].
  apply P; [reflexivity|reflexivity|]. right. by_eval.
Defined.

(** (5,10) observed as (7,12): a removal, then an insertion. *)
Lemma updateConnIdRange_events_paired_witness :
  paired NoEdit (events (updateConnIdRange (7, 12)) (win 5 10)) = true
  /\ existsb is_notification (events (updateConnIdRange (7, 12)) (win 5 10)) = true.
Proof.
  destruct (updateConnIdRange_events_paired 7 12 (win 5 10)) as (P & N).
  split; [exact P|]. apply N; [left|..]; by_eval.
Defined.
